(** * The Perforce REST gateway and its tool adapter

    A shallow embedding of [nodejs-api/server.js] (the Express gateway that
    shells out to the [p4] client) and of [analyzeSensitiveChanges] from the
    tool adapter (the MCP server's [index.js]). The module [Tools] embeds
    the rest of the adapter: the catalog of tools, their dispatch and the
    tools that make one request each.

    Conventions of the embedding.
    - A JavaScript string is a [string]: the sequence of its bytes in UTF-8.
      Whitespace ([trim]) and letter case ([toLowerCase]) are modelled for
      the ASCII range, which is what the [p4] client prints; other bytes are
      carried unchanged.
    - A JavaScript number that the code handles is an integer, a [Z].
      [parseInt] rounds what it reads to the nearest double ([Js.to_double]);
      an integer is printed by its decimal digits ([Js.of_Z]), which is how
      JavaScript prints the safe integers, those up to 2^53 - 1 in absolute
      value ([Js.safe_integer]). The statements on numbers that are read and
      printed again are made for safe integers, and those on letter case for
      texts of ASCII characters ([Js.is_ascii]).
    - JSON values sent by [res.json] are terms of [json]; an object is an
      association list in insertion order.
    - An [async] function is a computation in the monad [M]: it appends to
      a trace of effects (child processes spawned, log lines written) and
      either returns a value or throws an error message. *)

From Stdlib Require Import String Ascii List ZArith Bool Lia DecimalString.
From Stdlib Require Import DecimalPos DecimalZ.
Import ListNotations.

Open Scope list_scope.
Open Scope string_scope.

(* ================================================================== *)
(** ** JavaScript strings *)

Module Js.

Definition LF : ascii := ascii_of_nat 10.
Definition DQUOTE : string := String (ascii_of_nat 34) EmptyString.

(** White space and line terminators of the ASCII range, as
    [String.prototype.trim] strips them: TAB, LF, VT, FF, CR and SPACE. *)
Definition is_whitespace (c : ascii) : bool :=
  let n := nat_of_ascii c in
  ((9 <=? n) && (n <=? 13) || (n =? 32))%nat.

(** [s.length === 0], the only way for a string to be falsy. *)
Definition is_empty (s : string) : bool :=
  match s with EmptyString => true | String _ _ => false end.

(** Truthiness of a string, as in [if (s)], [s || d] and [filter(l => l)]. *)
Definition truthy (s : string) : bool := negb (is_empty s).

Fixpoint trimStart (s : string) : string :=
  match s with
  | EmptyString => EmptyString
  | String c s' => if is_whitespace c then trimStart s' else s
  end.

Fixpoint trimEnd (s : string) : string :=
  match s with
  | EmptyString => EmptyString
  | String c s' =>
      let r := trimEnd s' in
      if is_whitespace c && is_empty r then EmptyString else String c r
  end.

(** [s.trim()] *)
Definition trim (s : string) : string := trimEnd (trimStart s).

(** [s.split('\n')]: never empty, [EmptyString] splits into one empty line. *)
Fixpoint split_lf (s : string) : list string :=
  match s with
  | EmptyString => [EmptyString]
  | String c s' =>
      if Ascii.eqb c LF then EmptyString :: split_lf s'
      else match split_lf s' with
           | [] => [String c EmptyString]
           | l :: ls => String c l :: ls
           end
  end.

(** [s.startsWith(p)] *)
Fixpoint startsWith (s p : string) : bool :=
  match p, s with
  | EmptyString, _ => true
  | String _ _, EmptyString => false
  | String b p', String a s' => Ascii.eqb a b && startsWith s' p'
  end.

(** [s.includes(p)] *)
Fixpoint includes (s p : string) : bool :=
  startsWith s p ||
  match s with
  | EmptyString => false
  | String _ s' => includes s' p
  end.

Definition lower_char (c : ascii) : ascii :=
  let n := nat_of_ascii c in
  if ((65 <=? n) && (n <=? 90))%nat then ascii_of_nat (n + 32) else c.


(** [s.toLowerCase()] on a text of ASCII characters, of which it lowers the
    letters A to Z; the bytes of other characters are carried unchanged,
    where JavaScript follows the case mappings of Unicode. *)
Fixpoint toLowerCase (s : string) : string :=
  match s with
  | EmptyString => EmptyString
  | String c s' => String (lower_char c) (toLowerCase s')
  end.

(** [xs.join(sep)] *)
Fixpoint join (sep : string) (xs : list string) : string :=
  match xs with
  | [] => EmptyString
  | [x] => x
  | x :: rest => x ++ sep ++ join sep rest
  end.

(** [s.repeat(n)] *)
Fixpoint repeat (s : string) (n : nat) : string :=
  match n with
  | O => EmptyString
  | S n' => s ++ repeat s n'
  end.

(** An integer in a template literal, [`${n}`]: its decimal digits, as
    JavaScript prints every safe integer (it prints the shortest digits that
    identify a double, and an exponent from 10^21 on). *)
Definition of_Z (n : Z) : string := NilZero.string_of_int (Z.to_int n).
Definition of_nat (n : nat) : string := of_Z (Z.of_nat n).

Definition is_digit (c : ascii) : bool :=
  let n := nat_of_ascii c in ((48 <=? n) && (n <=? 57))%nat.

Definition digit_value (c : ascii) : Z := (Z.of_nat (nat_of_ascii c) - 48)%Z.

(** The longest prefix of decimal digits and what follows it. *)
Fixpoint span_digits (s : string) : string * string :=
  match s with
  | EmptyString => (EmptyString, EmptyString)
  | String c s' =>
      if is_digit c
      then let (d, r) := span_digits s' in (String c d, r)
      else (EmptyString, s)
  end.

Fixpoint all_digits (s : string) : bool :=
  match s with
  | EmptyString => true
  | String c s' => is_digit c && all_digits s'
  end.

(** The value of a string of decimal digits, most significant first. *)
Fixpoint digits_value (acc : Z) (s : string) : Z :=
  match s with
  | EmptyString => acc
  | String c s' => digits_value (10 * acc + digit_value c)%Z s'
  end.

(** [Number.isSafeInteger(n)]: at most 2^53 - 1 in absolute value. *)
Definition safe_integer (n : Z) : bool :=
  (Z.abs n <=? 9007199254740991)%Z.

(** The double nearest to an integer, ties going to the even significand:
    the integer itself up to 2^53, and beyond that the nearest integer with
    a significand of 53 bits. (From 2^1024 - 2^970 on a double is
    [Infinity], which is outside the integers of the model.) *)
Definition to_double (n : Z) : Z :=
  let a := Z.abs n in
  if (a <=? 9007199254740992)%Z then n
  else
    let e := (Z.log2 a - 52)%Z in
    let q := Z.shiftr a e in
    let r := Z.land a (Z.ones e) in
    let half := Z.shiftl 1 (e - 1) in
    let q' := if (half <? r)%Z || ((r =? half)%Z && Z.odd q)
              then (q + 1)%Z else q in
    (Z.sgn n * Z.shiftl q' e)%Z.

(** [parseInt(s)] on a string of the form [[-+]?[0-9]+], the only strings
    the gateway and the adapter pass to it; anything else is [NaN]. The
    result is a double. *)
Definition parseInt (s : string) : option Z :=
  match s with
  | EmptyString => None
  | String c s' =>
      if Ascii.eqb c "-" then
        if all_digits s' && truthy s'
        then Some (to_double (- digits_value 0 s'))%Z else None
      else if Ascii.eqb c "+" then
        if all_digits s' && truthy s'
        then Some (to_double (digits_value 0 s')) else None
      else if all_digits s then Some (to_double (digits_value 0 s)) else None
  end.

End Js.

(* ================================================================== *)
(** ** JSON values and association lists *)

#[warnings="-register-all"]
Inductive json : Type :=
| JNull
| JBool (b : bool)
| JNum (n : Z)
| JStr (s : string)
| JArr (items : list json)
| JObj (fields : list (string * json)).

(** The first binding of a key, [None] when there is none ([undefined]). *)
Fixpoint lookup {A : Type} (k : string) (kvs : list (string * A)) : option A :=
  match kvs with
  | [] => None
  | (k', v) :: rest => if String.eqb k k' then Some v else lookup k rest
  end.

(** [obj[k]] on a JSON value. *)
Definition get (k : string) (j : json) : option json :=
  match j with
  | JObj fields => lookup k fields
  | _ => None
  end.

Definition has (k : string) (j : json) : bool :=
  match get k j with Some _ => true | None => false end.

(** [obj[k] = v]: overwrite in place, or append a new property. *)
Fixpoint obj_set {A : Type} (k : string) (v : A) (kvs : list (string * A))
  : list (string * A) :=
  match kvs with
  | [] => [(k, v)]
  | (k', v') :: rest =>
      if String.eqb k k' then (k, v) :: rest else (k', v') :: obj_set k v rest
  end.

(** The array index that a key is, if it is one: the integer below
    2^32 - 1 of which the key is the decimal numeral. *)
Definition array_index (k : string) : option Z :=
  match k with
  | EmptyString => None
  | String c rest =>
      if Js.all_digits k
         && (negb (Ascii.eqb c "0") || Js.is_empty rest)
         && (String.length k <=? 10)%nat
      then
        let i := Js.digits_value 0 k in
        if (i <? 4294967295)%Z then Some i else None
      else None
  end.

(** A new property whose key is the array index [i], put where the
    properties are enumerated: after the array indices below [i] and before
    everything else. *)
Fixpoint insert_index {A : Type} (i : Z) (k : string) (v : A)
    (kvs : list (string * A)) : list (string * A) :=
  match kvs with
  | [] => [(k, v)]
  | (k', v') :: rest =>
      match array_index k' with
      | Some j =>
          if (j <? i)%Z then (k', v') :: insert_index i k v rest
          else (k, v) :: kvs
      | None => (k, v) :: kvs
      end
  end.

(** [obj[k] = v] on an object made by [{}], with its properties in the order
    in which they are enumerated and serialised: array indices ascending,
    then the other keys as they were created. Assigning a string to
    [__proto__] reaches the setter of [Object.prototype], which ignores it,
    and creates no property. *)
Definition assign {A : Type} (k : string) (v : A) (kvs : list (string * A))
  : list (string * A) :=
  if String.eqb k "__proto__" then kvs
  else
    match lookup k kvs, array_index k with
    | None, Some i => insert_index i k v kvs
    | _, _ => obj_set k v kvs
    end.

(** A field that holds a string or [null]. *)
Definition json_of_text (o : option string) : json :=
  match o with Some s => JStr s | None => JNull end.

(* ================================================================== *)
(** ** Effects: the trace and the monad of asynchronous computations *)

Inductive Event : Type :=
| Spawn (fullCommand cwd : string) (timeout : Z)
| LogInfo (line : string)
| LogWarn (line : string)
| LogError (line : string).

Definition Trace := list Event.

(** A thrown [Error] is represented by its [message]. *)
Definition Exn := string.

Definition M (A : Type) : Type := Trace -> (Exn + A) * Trace.

Definition ret {A} (a : A) : M A := fun t => (inr a, t).

Definition throw {A} (e : Exn) : M A := fun t => (inl e, t).

Definition bind {A B} (m : M A) (k : A -> M B) : M B :=
  fun t =>
    match m t with
    | (inr a, t') => k a t'
    | (inl e, t') => (inl e, t')
    end.

(** [try { body } catch (error) { handler(error.message) }] *)
Definition try_catch {A} (body : M A) (handler : Exn -> M A) : M A :=
  fun t =>
    match body t with
    | (inl e, t') => handler e t'
    | r => r
    end.

Definition emit (e : Event) : M unit := fun t => (inr tt, (t ++ [e])%list).

Notation "x <- m ;; k" := (bind m (fun x => k))
  (at level 61, m at next level, right associativity).
Notation "m ;; k" := (bind m (fun _ => k))
  (at level 61, right associativity).

(** Running a computation from the empty trace. *)
Definition run {A} (m : M A) : (Exn + A) * Trace := m [].
Definition result_of {A} (m : M A) : Exn + A := fst (run m).
Definition trace_of {A} (m : M A) : Trace := snd (run m).

Definition is_spawn (e : Event) : bool :=
  match e with Spawn _ _ _ => true | _ => false end.

(** The commands for which a child process was started. *)
Definition spawned (t : Trace) : list string :=
  flat_map (fun e => match e with Spawn c _ _ => [c] | _ => [] end) t.

(* ================================================================== *)
(** ** The child process *)

(** How [execAsync] settles: the promise resolves with the two streams when
    the child exits with code 0, and rejects with an [Error] on a non-zero
    exit, on a timeout and when the child cannot be spawned. *)
Inductive ExecOutcome : Type :=
| Resolved (stdout stderr : string)
| Rejected (message : string).

(** The world outside the gateway: what running a command line in a working
    directory under a timeout yields. *)
Definition Backend := string -> string -> Z -> ExecOutcome.

Record ExecOptions : Type := mkOptions {
  opt_cwd : option string;
  opt_timeout : option Z
}.

Definition no_options : ExecOptions := mkOptions None None.

Record CommandResult : Type := mkResult {
  success : bool;
  output : option string;
  error : option string
}.

(** [s || d] for a string that may be [undefined]. *)
Definition or_default (v : option string) (d : string) : string :=
  match v with
  | Some s => if Js.truthy s then s else d
  | None => d
  end.

(** [n || d] for a number that may be [undefined]. *)
Definition or_default_Z (v : option Z) (d : Z) : Z :=
  match v with
  | Some n => if Z.eqb n 0 then d else n
  | None => d
  end.

Section Executor.

Variable backend : Backend.

Definition logger_info (line : string) : M unit := emit (LogInfo line).
Definition logger_warn (line : string) : M unit := emit (LogWarn line).
Definition logger_error (line : string) : M unit := emit (LogError line).

Definition execAsync (fullCommand cwd : string) (timeout : Z)
  : M (string * string) :=
  fun t =>
    match backend fullCommand cwd timeout with
    | Resolved stdout stderr =>
        (inr (stdout, stderr), (t ++ [Spawn fullCommand cwd timeout])%list)
    | Rejected message =>
        (inl message, (t ++ [Spawn fullCommand cwd timeout])%list)
    end.

Definition executeP4Command (command : string) (options : ExecOptions)
  : M CommandResult :=
  let fullCommand := "p4 " ++ command in
  logger_info ("Executing P4 command: " ++ fullCommand) ;;
  try_catch
    (streams <- execAsync fullCommand
                  (or_default (opt_cwd options) "/workspace")
                  (or_default_Z (opt_timeout options) 30000) ;;
     let (stdout, stderr) := streams : string * string in
     (if Js.truthy stderr && negb (Js.includes stderr "warning")
      then logger_warn ("P4 command warning: " ++ stderr)
      else ret tt) ;;
     logger_info ("P4 command stdout for " ++ Js.DQUOTE ++ fullCommand
                  ++ Js.DQUOTE ++ ":" ++ String Js.LF (Js.trim stdout)) ;;
     ret (mkResult true (Some (Js.trim stdout)) None))
    (fun message =>
       logger_error ("P4 command failed: " ++ message) ;;
       ret (mkResult false None (Some message))).

End Executor.

(* ================================================================== *)
(** ** Requests *)

(** A value a request carries in a field: query and route parameters are
    strings, a field of the JSON body is any JSON scalar. A query key is
    given once: a repeated key, which arrives as an array, is outside the
    requests of the model. *)
Inductive scalar : Type :=
| SNull
| SBool (b : bool)
| SNum (n : Z)
| SStr (s : string).

Record Request : Type := mkRequest {
  req_query : list (string * string);
  req_params : list (string * string);
  req_body : list (string * scalar)
}.

Inductive Location : Type := InQuery | InParams | InBody.

(** [req[location][field]]; [None] is [undefined]. *)
Definition field_value (loc : Location) (field : string) (req : Request)
  : option scalar :=
  match loc with
  | InQuery => option_map SStr (lookup field (req_query req))
  | InParams => option_map SStr (lookup field (req_params req))
  | InBody => lookup field (req_body req)
  end.

Definition json_of_scalar (v : scalar) : json :=
  match v with
  | SNull => JNull
  | SBool b => JBool b
  | SNum n => JNum n
  | SStr s => JStr s
  end.

(** Truthiness of a value that may be [undefined]. *)
Definition truthy_value (v : option scalar) : bool :=
  match v with
  | None | Some SNull => false
  | Some (SBool b) => b
  | Some (SNum n) => negb (Z.eqb n 0)
  | Some (SStr s) => Js.truthy s
  end.

(* ================================================================== *)
(** ** Validation chains (the express-validator middleware)

    The routes declare their constraints with [query], [param] and [body]
    chains of express-validator. The library is a dependency of the gateway
    and its code is not among the sources; what a chain does is modelled
    below on scalar values. *)

Inductive Check : Type :=
| IsString
| NotEmpty
| IsInt (range : option (Z * Z))
| IsIn (values : list string)
| IsBoolean.

(** The string a standard validator sees. *)
Definition stringify (v : option scalar) : string :=
  match v with
  | None | Some SNull => EmptyString
  | Some (SBool true) => "true"
  | Some (SBool false) => "false"
  | Some (SNum n) => Js.of_Z n
  | Some (SStr s) => s
  end.

Definition mem_string (s : string) (xs : list string) : bool :=
  existsb (String.eqb s) xs.

(** Modelled from the spec: the checks of express-validator, whose code is
    not among the sources: string-ness ([typeof value === 'string']),
    non-emptiness, integers with an optional numeric range, enum membership
    and booleans. All but the first test the value as a string. *)
Definition check_holds (c : Check) (v : option scalar) : bool :=
  match c with
  | IsString => match v with Some (SStr _) => true | _ => false end
  | NotEmpty => Js.truthy (stringify v)
  | IsInt range =>
      match Js.parseInt (stringify v), range with
      | Some n, Some (lo, hi) => (lo <=? n)%Z && (n <=? hi)%Z
      | Some _, None => true
      | None, _ => false
      end
  | IsIn values => mem_string (stringify v) values
  | IsBoolean => mem_string (stringify v) ["true"; "false"; "1"; "0"]
  end.

Record Validator : Type := mkValidator {
  v_check : Check;
  v_message : string
}.

Record ValidationChain : Type := mkChain {
  chain_location : Location;
  chain_field : string;
  chain_optional : bool;
  chain_validators : list Validator
}.

Record ValidationError : Type := mkError {
  err_location : Location;
  err_field : string;
  err_value : option scalar;
  err_msg : string
}.

(** A validator of a chain is violated when the chain is not skipped and
    the check fails on the field's value. *)
Definition chain_skipped (c : ValidationChain) (req : Request) : bool :=
  chain_optional c &&
  match field_value (chain_location c) (chain_field c) req with
  | None => true
  | Some _ => false
  end.

Definition violated (c : ValidationChain) (req : Request) (v : Validator)
  : bool :=
  negb (chain_skipped c req) &&
  negb (check_holds (v_check v)
          (field_value (chain_location c) (chain_field c) req)).

Definition error_of (c : ValidationChain) (req : Request) (v : Validator)
  : ValidationError :=
  mkError (chain_location c) (chain_field c)
          (field_value (chain_location c) (chain_field c) req)
          (v_message v).

(** Modelled from the spec: how a chain of express-validator, whose code is
    not among the sources, checks a request. Every validator of the chain
    runs and every violation is collected, the first does not stop the
    others; an optional field that is [undefined] is not checked at all;
    [withMessage] names the error of the validator just before it. *)
Definition run_chain (c : ValidationChain) (req : Request)
  : list ValidationError :=
  map (error_of c req) (filter (violated c req) (chain_validators c)).

(** Modelled from the spec: [validationResult(req).array()] of
    express-validator after the chains of a route have run, the violations
    of all of them in order. *)
Definition validationResult (chains : list ValidationChain) (req : Request)
  : list ValidationError :=
  flat_map (fun c => run_chain c req) chains.

Definition location_name (l : Location) : string :=
  match l with
  | InQuery => "query"
  | InParams => "params"
  | InBody => "body"
  end.

(** An error as the client receives it, with the keys that version 6 of
    the library gives it; an [undefined] value is dropped by JSON
    serialisation. *)
Definition json_of_error (e : ValidationError) : json :=
  JObj ((match err_value e with
         | Some v => [("value", json_of_scalar v)]
         | None => []
         end)
        ++ [("msg", JStr (err_msg e));
            ("param", JStr (err_field e));
            ("location", JStr (location_name (err_location e)))])%list.

Definition invalid_value : string := "Invalid value".

Definition optional_field (loc : Location) (field : string)
    (vs : list Validator) : ValidationChain := mkChain loc field true vs.

Definition required_field (loc : Location) (field : string)
    (vs : list Validator) : ValidationChain := mkChain loc field false vs.

(* ================================================================== *)
(** ** Responses *)

Record Response : Type := mkResponse {
  status : nat;
  body : json
}.

(** [res.json(b)] *)
Definition res_json (b : json) : Response := mkResponse 200 b.

(** [res.status(code).json(b)] *)
Definition res_status_json (code : nat) (b : json) : Response :=
  mkResponse code b.

Definition failure (message : string) (detail : json) : json :=
  JObj [("success", JBool false); ("message", JStr message); ("error", detail)].

Definition ok (data : json) : json :=
  JObj [("success", JBool true); ("data", data)].

(** The validation middleware, behind the [chains] of a route: [next] is
    the handler that follows it. *)
Definition handleValidationErrors (chains : list ValidationChain)
    (req : Request) (next : M Response) : M Response :=
  let errors := validationResult chains req in
  match errors with
  | [] => next
  | _ :: _ =>
      ret (res_status_json 400
             (JObj [("success", JBool false);
                    ("message", JStr "Validation errors");
                    ("errors", JArr (map json_of_error errors))]))
  end.

(* ================================================================== *)
(** ** The routes of the gateway *)

(** [`${v}`] for a value that may be [undefined]. *)
Definition template (v : option scalar) : string :=
  match v with
  | None => "undefined"
  | Some SNull => "null"
  | Some v' => stringify (Some v')
  end.

(** A property whose value may be [undefined]: serialisation drops it. *)
Definition property (k : string) (v : option json) : list (string * json) :=
  match v with
  | Some j => [(k, j)]
  | None => []
  end.

(** [v || d] on values. *)
Definition value_or (v : option scalar) (d : scalar) : scalar :=
  match v with
  | Some x => if truthy_value v then x else d
  | None => d
  end.

(** [output.split('\n').filter(line => line.trim()).length] *)
Definition count_lines (output : string) : nat :=
  List.length
    (filter (fun line => Js.truthy (Js.trim line)) (Js.split_lf output)).

Fixpoint drop (n : nat) (s : string) : string :=
  match n, s with
  | O, _ => s
  | S _, EmptyString => EmptyString
  | S n', String _ s' => drop n' s'
  end.

(** [const [key, ...valueParts] = line.split(sep)] with
    [valueParts.join(sep)]: the text before and after the first separator,
    [None] when [valueParts] is empty. *)
Fixpoint split_first (sep line : string) : option (string * string) :=
  if Js.startsWith line sep then Some (EmptyString, drop (String.length sep) line)
  else match line with
       | EmptyString => None
       | String c rest =>
           match split_first sep rest with
           | Some (key, value) => Some (String c key, value)
           | None => None
           end
       end.

(** The [info] object built from the lines of [p4 info]. *)
Definition parse_info (output : string) : list (string * json) :=
  fold_left
    (fun info line =>
       match split_first ": " line with
       | Some (key, value) => assign (Js.trim key) (JStr (Js.trim value)) info
       | None => info
       end)
    (Js.split_lf output) [].

(** Calling a string method on [result.output]: a [TypeError] on [null]. *)
Definition text_of (o : option string) : M string :=
  match o with
  | Some s => ret s
  | None => throw "Cannot read properties of null (reading 'split')"
  end.

Definition files_chains : list ValidationChain :=
  [ optional_field InQuery "path"
      [mkValidator IsString "Path must be a string"];
    optional_field InQuery "max"
      [mkValidator (IsInt (Some (1, 1000)%Z)) "Max must be between 1 and 1000"] ].

Definition content_chains : list ValidationChain :=
  [ required_field InQuery "path"
      [mkValidator NotEmpty invalid_value;
       mkValidator IsString "Path is required and must be a string"];
    optional_field InQuery "revision"
      [mkValidator (IsInt None) "Revision must be a number"] ].

Definition history_chains : list ValidationChain :=
  [ required_field InQuery "path"
      [mkValidator NotEmpty invalid_value;
       mkValidator IsString "Path is required and must be a string"];
    optional_field InQuery "max"
      [mkValidator (IsInt (Some (1, 100)%Z)) "Max must be between 1 and 100"] ].

Definition changes_chains : list ValidationChain :=
  [ optional_field InQuery "max"
      [mkValidator (IsInt (Some (1, 100)%Z)) "Max must be between 1 and 100"];
    optional_field InQuery "status"
      [mkValidator (IsIn ["pending"; "submitted"])
         "Status must be pending or submitted"];
    optional_field InQuery "user"
      [mkValidator IsString "User must be a string"] ].

Definition change_chains : list ValidationChain :=
  [ required_field InParams "changeId"
      [mkValidator (IsInt None) "Change ID must be a number"] ].

Definition sync_chains : list ValidationChain :=
  [ optional_field InBody "path"
      [mkValidator IsString "Path must be a string"];
    optional_field InBody "force"
      [mkValidator IsBoolean "Force must be a boolean"] ].

Section Gateway.

Variable backend : Backend.

(** [new Date().toISOString()] at the time of the request. *)
Variable now : string.

Let p4 (command : string) : M CommandResult :=
  executeP4Command backend command no_options.

(** The [catch] block every [/api] handler ends with. *)
Definition internal_error (context : string) (message : Exn) : M Response :=
  logger_error context ;;
  ret (res_status_json 500 (failure "Internal server error" (JStr message))).

(** GET /health *)
Definition health : M Response :=
  try_catch
    (result <- p4 "info" ;;
     ret (res_json
            (JObj [("status", JStr "healthy");
                   ("timestamp", JStr now);
                   ("perforce",
                    JStr (if success result then "connected" else "disconnected"));
                   ("version", JStr "1.0.0")])))
    (fun message =>
       ret (res_status_json 503
              (JObj [("status", JStr "unhealthy");
                     ("timestamp", JStr now);
                     ("error", JStr message)]))).

(** GET /api/info *)
Definition info : M Response :=
  try_catch
    (result <- p4 "info" ;;
     if negb (success result) then
       ret (res_status_json 500
              (failure "Failed to get server info" (json_of_text (error result))))
     else
       output <- text_of (output result) ;;
       ret (res_json (ok (JObj (parse_info output)))))
    (internal_error "Error getting server info:").

(** GET /api/files *)
Definition files_handler (req : Request) : M Response :=
  try_catch
    (let depotPath := or_default (lookup "path" (req_query req)) "//depot/..." in
     let maxFiles := or_default (lookup "max" (req_query req)) (Js.of_Z 100) in
     result <- p4 ("files -m " ++ maxFiles ++ " "
                   ++ Js.DQUOTE ++ depotPath ++ Js.DQUOTE) ;;
     if negb (success result) then
       ret (res_status_json 500
              (failure "Failed to list files" (json_of_text (error result))))
     else
       output <- text_of (output result) ;;
       ret (res_json
              (ok (JObj [("rawOutput", JStr output);
                         ("count", JNum (Z.of_nat (count_lines output)));
                         ("path", JStr depotPath)]))))
    (internal_error "Error listing files:").

(** GET /api/files/content *)
Definition content_handler (req : Request) : M Response :=
  try_catch
    (let filePath := lookup "path" (req_query req) in
     let revision :=
       match lookup "revision" (req_query req) with
       | Some r => if Js.truthy r then "#" ++ r else EmptyString
       | None => EmptyString
       end in
     result <- p4 ("print -q " ++ Js.DQUOTE
                   ++ template (option_map SStr filePath) ++ revision
                   ++ Js.DQUOTE) ;;
     if negb (success result) then
       ret (res_status_json 404
              (failure "File not found or cannot be accessed"
                 (json_of_text (error result))))
     else
       ret (res_json
              (ok (JObj (property "path" (option_map JStr filePath)
                         ++ [("revision", JStr revision);
                             ("content", json_of_text (output result))])%list))))
    (internal_error "Error getting file content:").

(** GET /api/files/history *)
Definition history_handler (req : Request) : M Response :=
  try_catch
    (let filePath := lookup "path" (req_query req) in
     let maxChanges := or_default (lookup "max" (req_query req)) (Js.of_Z 10) in
     result <- p4 ("filelog -m " ++ maxChanges ++ " " ++ Js.DQUOTE
                   ++ template (option_map SStr filePath) ++ Js.DQUOTE) ;;
     if negb (success result) then
       ret (res_status_json 404
              (failure "File history not found" (json_of_text (error result))))
     else
       ret (res_json
              (ok (JObj (property "path" (option_map JStr filePath)
                         ++ [("history", json_of_text (output result))])%list))))
    (internal_error "Error getting file history:").

(** GET /api/changes *)
Definition changes_handler (req : Request) : M Response :=
  try_catch
    (let maxChanges := or_default (lookup "max" (req_query req)) (Js.of_Z 20) in
     let status := lookup "status" (req_query req) in
     let user := lookup "user" (req_query req) in
     let command := "changes -m " ++ maxChanges in
     let command :=
       match status with
       | Some s => if Js.truthy s then command ++ " -s " ++ s else command
       | None => command
       end in
     let command :=
       match user with
       | Some u => if Js.truthy u then command ++ " -u " ++ u else command
       | None => command
       end in
     result <- p4 command ;;
     if negb (success result) then
       ret (res_status_json 500
              (failure "Failed to list changes" (json_of_text (error result))))
     else
       output <- text_of (output result) ;;
       ret (res_json
              (ok (JObj [("rawOutput", JStr output);
                         ("count", JNum (Z.of_nat (count_lines output)))]))))
    (internal_error "Error listing changes:").

(** GET /api/changes/:changeId *)
Definition change_handler (req : Request) : M Response :=
  try_catch
    (let changeId := lookup "changeId" (req_params req) in
     result <- p4 ("describe -s " ++ template (option_map SStr changeId)) ;;
     if negb (success result) then
       ret (res_status_json 404
              (failure "Change not found" (json_of_text (error result))))
     else
       ret (res_json
              (ok (JObj [("changeId",
                          match Js.parseInt (template (option_map SStr changeId)) with
                          | Some n => JNum n
                          | None => JNull
                          end);
                         ("rawOutput", json_of_text (output result))]))))
    (internal_error "Error getting change details:").

(** GET /api/users *)
Definition users : M Response :=
  try_catch
    (result <- p4 "users" ;;
     if negb (success result) then
       ret (res_status_json 500
              (failure "Failed to list users" (json_of_text (error result))))
     else
       output <- text_of (output result) ;;
       ret (res_json
              (ok (JObj [("rawOutput", JStr output);
                         ("count", JNum (Z.of_nat (count_lines output)))]))))
    (internal_error "Error listing users:").

(** POST /api/sync *)
Definition sync_handler (req : Request) : M Response :=
  try_catch
    (let path := value_or (lookup "path" (req_body req)) (SStr "//depot/...") in
     let force := value_or (lookup "force" (req_body req)) (SBool false) in
     let command := "sync" in
     let command :=
       if truthy_value (Some force) then command ++ " -f" else command in
     let command :=
       command ++ " " ++ Js.DQUOTE ++ template (Some path) ++ Js.DQUOTE in
     result <- p4 command ;;
     ret (res_json
            (ok (JObj [("path", json_of_scalar path);
                       ("rawOutput", json_of_text (output result));
                       ("forced", json_of_scalar force)]))))
    (internal_error "Error syncing files:").

(** A route with validation chains: the chains run, then the validation
    middleware, then the handler. *)
Definition route (chains : list ValidationChain)
    (handler : Request -> M Response) (req : Request) : M Response :=
  handleValidationErrors chains req (handler req).

Definition files := route files_chains files_handler.
Definition content := route content_chains content_handler.
Definition history := route history_chains history_handler.
Definition changes := route changes_chains changes_handler.
Definition change := route change_chains change_handler.
Definition sync := route sync_chains sync_handler.

End Gateway.

(** The last two middlewares: unhandled errors and unmatched routes. *)
Definition error_middleware (development : bool) (message : Exn) : Response :=
  res_status_json 500
    (failure "Internal server error"
       (JStr (if development then message else "Something went wrong"))).

Definition not_found : Response :=
  res_status_json 404
    (JObj [("success", JBool false);
           ("message", JStr "Endpoint not found");
           ("availableEndpoints", JStr "/api/docs")]).

(* ================================================================== *)
(** ** The tool adapter: the scan for sensitive changes *)

Module Adapter.

Definition NL : string := String Js.LF EmptyString.

(** How a call of [axios(config)] settles: with a reply (resolved when the
    status is 2xx, rejected with [error.response] otherwise), with no reply
    at all ([error.request]), or before the request was sent. *)
Inductive AxiosOutcome : Type :=
| Replied (status : nat) (statusText : string) (data : json)
| NoReply
| NotSent (message : string).

(** The gateway as the adapter sees it: method, URL and body of a call. *)
Definition Http := string -> string -> option json -> AxiosOutcome.

(** What the adapter did: the calls it made to the gateway. *)
Record Call : Type := mkCall { call_method : string; call_url : string }.

Definition A (T : Type) : Type := list Call -> (Exn + T) * list Call.

Definition aret {T} (x : T) : A T := fun calls => (inr x, calls).
Definition athrow {T} (e : Exn) : A T := fun calls => (inl e, calls).
Definition abind {T U} (m : A T) (k : T -> A U) : A U :=
  fun calls =>
    match m calls with
    | (inr x, calls') => k x calls'
    | (inl e, calls') => (inl e, calls')
    end.
Definition atry {T} (body : A T) (handler : Exn -> A T) : A T :=
  fun calls =>
    match body calls with
    | (inl e, calls') => handler e calls'
    | r => r
    end.

Definition json_truthy (j : json) : bool :=
  match j with
  | JNull => false
  | JBool b => b
  | JNum n => negb (Z.eqb n 0)
  | JStr s => Js.truthy s
  | JArr _ | JObj _ => true
  end.

(** [String(j)], as a template literal renders a value of a reply. *)
Fixpoint to_String (j : json) : string :=
  match j with
  | JNull => "null"
  | JBool true => "true"
  | JBool false => "false"
  | JNum n => Js.of_Z n
  | JStr s => s
  | JArr items =>
      let element x :=
        match x with JNull => EmptyString | _ => to_String x end in
      (fix commas (xs : list json) : string :=
         match xs with
         | [] => EmptyString
         | [x] => element x
         | x :: rest => element x ++ "," ++ commas rest
         end) items
  | JObj _ => "[object Object]"
  end.

Definition is_2xx (status : nat) : bool :=
  ((200 <=? status) && (status <? 300))%nat.

Definition default_keywords : list string :=
  ["password"; "secret"; "key"; "token"; "credential"; "auth"].

(** [line.match(/^Change (\d+)/)] followed by [parseInt(match[1])]. *)
Definition change_number (line : string) : option Z :=
  if Js.startsWith line "Change " then
    let (digits, _) := Js.span_digits (drop 7 line) in
    if Js.truthy digits then Some (Js.to_double (Js.digits_value 0 digits))
    else None
  else None.

(** The loop that fills [changeNumbers]. *)
Definition change_numbers (changesText : string) : list Z :=
  let changeLines :=
    filter (fun line => Js.truthy (Js.trim line)) (Js.split_lf changesText) in
  flat_map
    (fun line =>
       match change_number line with
       | Some n => [n]
       | None => []
       end)
    changeLines.

(** [keywords] with [keyword.toLowerCase()] found in the lowered details. *)
Definition found_keywords (keywords : list string) (changeDetails : string)
  : list string :=
  let lowerChangeDetails := Js.toLowerCase changeDetails in
  filter
    (fun keyword => Js.includes lowerChangeDetails (Js.toLowerCase keyword))
    keywords.

(** The variables the loop over [changeNumbers] updates. *)
Record Analysis : Type := mkAnalysis {
  analysisResults : string;
  foundSensitiveChanges : nat
}.

Fixpoint for_each {T S} (step : S -> T -> A S) (xs : list T) (s : S) : A S :=
  match xs with
  | [] => aret s
  | x :: rest => abind (step s x) (for_each step rest)
  end.

Definition text_content (text : string) : json :=
  JObj [("content", JArr [JObj [("type", JStr "text"); ("text", JStr text)]])].

Section Tool.

Variable http : Http.

(** [process.env.PERFORCE_API_URL || 'http://localhost:3000/api'] *)
Variable apiBaseUrl : string.

Definition makeApiRequest (endpoint method : string) (data : option json)
  : A json :=
  fun calls =>
    let url := apiBaseUrl ++ endpoint in
    let calls' := (calls ++ [mkCall method url])%list in
    match http method url data with
    | Replied status statusText reply =>
        if is_2xx status then (inr reply, calls')
        else
          let message :=
            match get "message" reply with
            | Some m => if json_truthy m then to_String m else statusText
            | None => statusText
            end in
          (inl ("API Error: " ++ Js.of_nat status ++ " - " ++ message), calls')
    | NoReply =>
        (inl "Network Error: Unable to reach Perforce API server", calls')
    | NotSent message => (inl ("Request Error: " ++ message), calls')
    end.

(** [const x = result.data.rawOutput] followed by [x.method(...)], where
    [method] is a method of strings: a [TypeError] unless [x] is a string,
    with the message Node gives it. *)
Definition rawOutput_of (result : json) (x method : string) : A string :=
  match result with
  | JNull => athrow "Cannot read properties of null (reading 'data')"
  | _ =>
      match get "data" result with
      | None =>
          athrow "Cannot read properties of undefined (reading 'rawOutput')"
      | Some JNull =>
          athrow "Cannot read properties of null (reading 'rawOutput')"
      | Some data =>
          match get "rawOutput" data with
          | Some (JStr text) => aret text
          | None =>
              athrow ("Cannot read properties of undefined (reading '"
                      ++ method ++ "')")
          | Some JNull =>
              athrow ("Cannot read properties of null (reading '" ++ method
                      ++ "')")
          | Some _ => athrow (x ++ "." ++ method ++ " is not a function")
          end
      end
  end.

(** The body of the loop over [changeNumbers]. *)
Definition analyze_change (keywords : list string) (st : Analysis)
    (changeId : Z) : A Analysis :=
  atry
    (abind (makeApiRequest ("/changes/" ++ Js.of_Z changeId) "GET" None)
       (fun changeResult =>
     abind (rawOutput_of changeResult "changeDetails" "toLowerCase")
       (fun changeDetails =>
     let foundKeywords := found_keywords keywords changeDetails in
     if (0 <? List.length foundKeywords)%nat then
       aret (mkAnalysis
               (analysisResults st
                ++ "🚨 POTENTIALLY SENSITIVE CHANGE " ++ Js.of_Z changeId ++ NL
                ++ "Keywords found: " ++ Js.join ", " foundKeywords ++ NL
                ++ "Details:" ++ NL ++ changeDetails ++ NL
                ++ Js.repeat "=" 60 ++ NL ++ NL)
               (S (foundSensitiveChanges st)))
     else aret st)))
    (fun message =>
       aret (mkAnalysis
               (analysisResults st
                ++ "⚠️  Could not analyze change " ++ Js.of_Z changeId
                ++ ": " ++ message ++ NL ++ NL)
               (foundSensitiveChanges st))).

(** The change numbers of the listing and the state after the loop. *)
Definition scan (maxChanges : Z) (keywords : list string)
  : A (list Z * Analysis) :=
  abind (makeApiRequest ("/changes?max=" ++ Js.of_Z maxChanges) "GET" None)
    (fun changesResult =>
  abind (rawOutput_of changesResult "changesText" "split")
    (fun changesText =>
  let changeNumbers := change_numbers changesText in
  let header :=
    "Sensitive Change Analysis Report" ++ NL
    ++ "=====================================" ++ NL
    ++ "Analyzed " ++ Js.of_nat (List.length changeNumbers)
    ++ " recent changes" ++ NL
    ++ "Keywords searched: " ++ Js.join ", " keywords ++ NL ++ NL in
  abind (for_each (analyze_change keywords) changeNumbers
           (mkAnalysis header 0))
    (fun st => aret (changeNumbers, st)))).

(** The closing lines of the report. *)
Definition conclude (maxChanges : Z) (changeNumbers : list Z)
    (st : Analysis) : string :=
  if (foundSensitiveChanges st =? 0)%nat then
    analysisResults st
    ++ "✅ No potentially sensitive changes found in the last "
    ++ Js.of_Z maxChanges ++ " changes." ++ NL
  else
    analysisResults st
    ++ NL ++ "🔍 SUMMARY: Found " ++ Js.of_nat (foundSensitiveChanges st)
    ++ " potentially sensitive changes out of "
    ++ Js.of_nat (List.length changeNumbers) ++ " analyzed." ++ NL
    ++ "Please review these changes carefully for actual sensitive content."
    ++ NL.

Definition analyzeSensitiveChanges (maxChanges : option Z)
    (keywords : option (list string)) : A json :=
  let maxChanges := match maxChanges with Some n => n | None => 10%Z end in
  let keywords :=
    match keywords with Some ks => ks | None => default_keywords end in
  atry
    (abind (scan maxChanges keywords)
       (fun r => aret (text_content (conclude maxChanges (fst r) (snd r)))))
    (fun message =>
       athrow ("Failed to analyze sensitive changes: " ++ message)).

End Tool.

End Adapter.

(* ================================================================== *)
(** ** The operations of the gateway, as the specification names them *)

Inductive Operation : Type :=
| GetInfo
| ListFiles
| GetFileContent
| GetFileHistory
| ListChanges
| GetChangeDetails
| ListUsers
| SyncFiles.

(** The handler of an operation, behind its validation when it has one. *)
Definition serve (backend : Backend) (op : Operation) (req : Request)
  : M Response :=
  match op with
  | GetInfo => info backend
  | ListFiles => files backend req
  | GetFileContent => content backend req
  | GetFileHistory => history backend req
  | ListChanges => changes backend req
  | GetChangeDetails => change backend req
  | ListUsers => users backend
  | SyncFiles => sync backend req
  end.

(** The constraints an operation declares. *)
Definition chains_of (op : Operation) : list ValidationChain :=
  match op with
  | GetInfo | ListUsers => []
  | ListFiles => files_chains
  | GetFileContent => content_chains
  | GetFileHistory => history_chains
  | ListChanges => changes_chains
  | GetChangeDetails => change_chains
  | SyncFiles => sync_chains
  end.

(** Resource-oriented lookups: file content, file history, change detail. *)
Definition resource_lookup (op : Operation) : bool :=
  match op with
  | GetFileContent | GetFileHistory | GetChangeDetails => true
  | _ => false
  end.

(** Collection operations: info, file list, change list, user list. *)
Definition collection (op : Operation) : bool :=
  match op with
  | GetInfo | ListFiles | ListChanges | ListUsers => true
  | _ => false
  end.

(** Listing operations: file list, change list, user list. *)
Definition listing (op : Operation) : bool :=
  match op with
  | ListFiles | ListChanges | ListUsers => true
  | _ => false
  end.

(** [j.a.b] *)
Definition get2 (a b : string) (j : json) : option json :=
  match get a j with
  | Some inner => get b inner
  | None => None
  end.

(** What the executor returns for each way the child process settles. *)
Definition command_result (o : ExecOutcome) : CommandResult :=
  match o with
  | Resolved stdout _ => mkResult true (Some (Js.trim stdout)) None
  | Rejected message => mkResult false None (Some message)
  end.

(** How the child process of a command settles under the given options. *)
Definition outcome_of (backend : Backend) (command : string)
    (options : ExecOptions) : ExecOutcome :=
  backend ("p4 " ++ command)
          (or_default (opt_cwd options) "/workspace")
          (or_default_Z (opt_timeout options) 30000).

(** A backend command failed during a computation: a child process was
    spawned for it and settled by rejecting. *)
Definition command_failed {A} (backend : Backend) (m : M A) : Prop :=
  exists cmd cwd timeout message,
    In (Spawn cmd cwd timeout) (trace_of m) /\
    backend cmd cwd timeout = Rejected message.

(** The number of non-blank lines of a text, counted in one pass: a line
    ends at a line feed or at the end of the text, and is non-blank when it
    holds a character that is not white space. [seen] tells whether the
    line being read has shown such a character. *)
Fixpoint scan_lines (seen : bool) (s : string) : nat :=
  match s with
  | EmptyString => if seen then 1 else 0
  | String c s' =>
      if Ascii.eqb c Js.LF
      then (if seen then 1 else 0) + scan_lines false s'
      else scan_lines (seen || negb (Js.is_whitespace c)) s'
  end.

Definition nonblank_lines (s : string) : nat := scan_lines false s.





(** A line that starts with the word Change, a space and a decimal number:
    the number is the longest run of digits there. *)
Definition names_change (line : string) (n : Z) : Prop :=
  exists digits rest,
    line = "Change " ++ digits ++ rest /\
    Js.all_digits digits = true /\
    digits <> EmptyString /\
    (match rest with
     | EmptyString => True
     | String c _ => Js.is_digit c = false
     end) /\
    n = Js.digits_value 0 digits.

(* ================================================================== *)
(** ** A small depot, used to run the model on concrete requests *)

Module Scenario.

Import Adapter.

Definition changes_text : string :=
  "Change 3 on 2025/01/03 by super@nodejs-client 'Store the password in se'"
  ++ NL ++
  "Change 2 on 2025/01/02 by super@nodejs-client 'Updated fixed test file'"
  ++ NL ++
  "Change 1 on 2025/01/01 by super@nodejs-client 'Initial commit for a fix'"
  ++ NL.

Definition describe_3 : string :=
  "Change 3 by super@nodejs-client on 2025/01/03 10:15:00" ++ NL ++ NL
  ++ "    Store the password in settings" ++ NL ++ NL
  ++ "Affected files ..." ++ NL ++ NL
  ++ "... //depot/main/settings.txt#1 add" ++ NL.

Definition describe_2 : string :=
  "Change 2 by super@nodejs-client on 2025/01/02 09:30:00" ++ NL ++ NL
  ++ "    Updated fixed test file" ++ NL ++ NL
  ++ "Affected files ..." ++ NL ++ NL
  ++ "... //depot/main/fixed.txt#2 edit" ++ NL.

Definition describe_1 : string :=
  "Change 1 by super@nodejs-client on 2025/01/01 09:00:00" ++ NL ++ NL
  ++ "    Initial commit for a fixed test file" ++ NL ++ NL
  ++ "Affected files ..." ++ NL ++ NL
  ++ "... //depot/main/fixed.txt#1 add" ++ NL.

Definition files_text : string :=
  "//depot/main/fixed.txt#2 - edit change 2 (text)" ++ NL
  ++ "//depot/main/settings.txt#1 - add change 3 (text)" ++ NL.

Definition commands : list (string * string) :=
  [ ("p4 info", "User name: super" ++ NL ++ "Server address: localhost:1666");
    ("p4 changes -m 3", changes_text);
    ("p4 changes -m 20", changes_text);
    ("p4 describe -s 3", describe_3);
    ("p4 describe -s 2", describe_2);
    ("p4 describe -s 1", describe_1);
    ("p4 users", "super <super@localhost> (super) accessed 2025/01/03" ++ NL);
    ("p4 files -m 100 " ++ Js.DQUOTE ++ "//depot/..." ++ Js.DQUOTE, files_text);
    ("p4 files -m 5 " ++ Js.DQUOTE ++ "//depot/..." ++ Js.DQUOTE, files_text) ].

(** A server that answers the commands above and fails every other. *)
Definition depot : Backend :=
  fun fullCommand _ _ =>
    match lookup fullCommand commands with
    | Some stdout => Resolved stdout EmptyString
    | None => Rejected ("Command failed: " ++ fullCommand)
    end.

(** A server that cannot be reached: every command fails. *)
Definition unreachable : Backend :=
  fun fullCommand _ _ =>
    Rejected ("Command failed: " ++ fullCommand ++ NL
              ++ "Perforce client error: Connect to server failed").

Definition request (query params : list (string * string))
    (fields : list (string * scalar)) : Request :=
  mkRequest query params fields.

Definition no_parameters : Request := request [] [] [].

Definition fixed_file : Request :=
  request [("path", "//depot/main/fixed.txt")] [] [].

Definition forced_sync : Request := request [] [] [("force", SBool true)].

(** What the gateway answers when the changes of [depot] are listed. *)
Definition listed_changes : Response :=
  res_json (ok (JObj [("rawOutput", JStr (Js.trim changes_text));
                      ("count", JNum 3)])).

Definition base : string := "http://localhost:3000/api".

(** The reply of the gateway to a request, as [axios] delivers it. *)
Definition reply_of (m : M Response) : AxiosOutcome :=
  match result_of m with
  | inr resp =>
      Replied (status resp)
              (if (status resp =? 200)%nat then "OK" else "Error")
              (body resp)
  | inl _ => NoReply
  end.

(** The gateway in front of [depot], for the URLs of the scan. *)
Definition gateway : Http :=
  fun method url _ =>
    if String.eqb url (base ++ "/changes?max=3") then
      reply_of (changes depot (request [("max", "3")] [] []))
    else if String.eqb url (base ++ "/changes/3") then
      reply_of (change depot (request [] [("changeId", "3")] []))
    else if String.eqb url (base ++ "/changes/2") then
      reply_of (change depot (request [] [("changeId", "2")] []))
    else if String.eqb url (base ++ "/changes/1") then
      reply_of (change depot (request [] [("changeId", "1")] []))
    else Replied 404 "Not Found" (body not_found).

End Scenario.

(* ================================================================== *)
(** ** Definitions used to state the properties *)

(** The trace the executor leaves for a command. *)
Definition executor_trace (backend : Backend) (command : string)
    (options : ExecOptions) : Trace :=
  let fullCommand := "p4 " ++ command in
  let cwd := or_default (opt_cwd options) "/workspace" in
  let timeout := or_default_Z (opt_timeout options) 30000 in
  LogInfo ("Executing P4 command: " ++ fullCommand)
  :: Spawn fullCommand cwd timeout
  :: match backend fullCommand cwd timeout with
     | Resolved stdout stderr =>
         (if Js.truthy stderr && negb (Js.includes stderr "warning")
          then [LogWarn ("P4 command warning: " ++ stderr)]
          else [])
         ++ [LogInfo ("P4 command stdout for " ++ Js.DQUOTE ++ fullCommand
                      ++ Js.DQUOTE ++ ":" ++ String Js.LF (Js.trim stdout))]
     | Rejected message => [LogError ("P4 command failed: " ++ message)]
     end%list.

(** A line shows ink when one of its characters is not white space. *)
Fixpoint has_ink (s : string) : bool :=
  match s with
  | EmptyString => false
  | String c s' => negb (Js.is_whitespace c) || has_ink s'
  end.

(** How many lines of a list show ink. *)
Definition inked_lines (ls : list string) : nat :=
  List.length (filter (fun line => Js.truthy (Js.trim line)) ls).

(** The invariant of the response envelope. *)
Definition well_formed_envelope (resp : Response) : Prop :=
  (get "success" (body resp) = Some (JBool true) /\
   has "data" (body resp) = true) \/
  (get "success" (body resp) = Some (JBool false) /\
   has "data" (body resp) = false /\
   has "message" (body resp) = true /\
   has "error" (body resp) || has "errors" (body resp) = true).

(** [foundKeywords.length > 0] *)
Definition found_keywords_nonempty (keywords : list string) (details : string)
  : bool :=
  match Adapter.found_keywords keywords details with
  | [] => false
  | _ :: _ => true
  end.

Module ScanSpec.

Import Adapter.

(** The detail text the gateway serves for a change: the [rawOutput] of a
    2xx reply to the request for that change. *)
Definition change_details (http : Http) (base : string) (changeId : Z)
  : option string :=
  match http "GET" (base ++ "/changes/" ++ Js.of_Z changeId) None with
  | Replied status _ reply =>
      if is_2xx status then
        match get2 "data" "rawOutput" reply with
        | Some (JStr text) => Some text
        | _ => None
        end
      else None
  | _ => None
  end.

(** A change is flagged when its detail text was served and one of the
    keywords is found in it. *)
Definition flagged (http : Http) (base : string) (keywords : list string)
    (changeId : Z) : bool :=
  match change_details http base changeId with
  | Some details => found_keywords_nonempty keywords details
  | None => false
  end.

Definition detail_call (base : string) (changeId : Z) : Call :=
  mkCall "GET" (base ++ "/changes/" ++ Js.of_Z changeId).

(** The paragraph of the report on a flagged change. *)
Definition flag_paragraph (keywords : list string) (changeId : Z)
    (details : string) : string :=
  "🚨 POTENTIALLY SENSITIVE CHANGE " ++ Js.of_Z changeId ++ NL
  ++ "Keywords found: " ++ Js.join ", " (found_keywords keywords details) ++ NL
  ++ "Details:" ++ NL ++ details ++ NL
  ++ Js.repeat "=" 60 ++ NL ++ NL.

End ScanSpec.




(** The claim on sync, as the specification words it: on a failed command
    the reply is a success envelope whose [rawOutput] is the backend's text. *)
Definition sync_surfaces_output (backend : Backend) (req : Request) : Prop :=
  command_failed backend (sync backend req) ->
  exists resp text,
    result_of (sync backend req) = inr resp /\
    get "success" (body resp) = Some (JBool true) /\
    get2 "data" "rawOutput" (body resp) = Some (JStr text).

(** The claim on the health check, as the specification words it: a status
    that is healthy or degraded with the success of the command, beside a
    boolean [backendConnected]. *)
Definition health_status_follows_command (backend : Backend) (now : string)
  : Prop :=
  exists resp,
    result_of (health backend now) = inr resp /\
    get "status" (body resp)
    = Some (JStr (if success (command_result (outcome_of backend "info" no_options))
                  then "healthy" else "degraded")) /\
    get "backendConnected" (body resp)
    = Some (JBool (success (command_result (outcome_of backend "info" no_options)))).

(* ================================================================== *)
(** ** The tool adapter: the catalog of tools and their dispatch *)

Module Tools.

Import Adapter.

(** The error codes of the protocol that the adapter uses. *)
Inductive ErrorCode : Type := MethodNotFound | InvalidParams | InternalError.

(** What a tool throws: an [McpError] with its code, or any other [Error]. *)
Inductive Failure : Type :=
| McpError (code : ErrorCode) (message : string)
| PlainError (message : string).

Definition T (X : Type) : Type := list Call -> (Failure + X) * list Call.

Definition tret {X} (x : X) : T X := fun calls => (inr x, calls).
Definition tthrow {X} (f : Failure) : T X := fun calls => (inl f, calls).
Definition tbind {X Y} (m : T X) (k : X -> T Y) : T Y :=
  fun calls =>
    match m calls with
    | (inr x, calls') => k x calls'
    | (inl f, calls') => (inl f, calls')
    end.
Definition ttry {X} (body : T X) (handler : Failure -> T X) : T X :=
  fun calls =>
    match body calls with
    | (inl f, calls') => handler f calls'
    | r => r
    end.

(** A computation that throws plain errors only. *)
Definition lift {X} (m : A X) : T X :=
  fun calls =>
    match m calls with
    | (inr x, calls') => (inr x, calls')
    | (inl message, calls') => (inl (PlainError message), calls')
    end.

Definition hex_upper (n : nat) : ascii :=
  if (n <? 10)%nat then ascii_of_nat (48 + n) else ascii_of_nat (55 + n).

Definition hex_lower (n : nat) : ascii :=
  if (n <? 10)%nat then ascii_of_nat (48 + n) else ascii_of_nat (87 + n).

(** The bytes that the form-urlencoded serialisation leaves as they are:
    ASCII letters and digits, [*], [-], [.] and [_]. *)
Definition form_safe (c : ascii) : bool :=
  let n := nat_of_ascii c in
  (((48 <=? n) && (n <=? 57)) || ((65 <=? n) && (n <=? 90))
   || ((97 <=? n) && (n <=? 122))
   || (n =? 42) || (n =? 45) || (n =? 46) || (n =? 95))%nat.

Definition urlencode_byte (c : ascii) : string :=
  let n := nat_of_ascii c in
  if form_safe c then String c EmptyString
  else if (n =? 32)%nat then "+"
  else String "%" (String (hex_upper (n / 16))
                     (String (hex_upper (n mod 16)) EmptyString)).

Fixpoint urlencode (s : string) : string :=
  match s with
  | EmptyString => EmptyString
  | String c s' => urlencode_byte c ++ urlencode s'
  end.

(** [`${new URLSearchParams(...)}`]: the pairs in the form-urlencoded
    serialisation of the URL standard, on the bytes of UTF-8. *)
Definition search_params (pairs : list (string * string)) : string :=
  Js.join "&"
    (map (fun p => urlencode (fst p) ++ "=" ++ urlencode (snd p)) pairs).

Definition BACKSLASH : string := String (ascii_of_nat 92) EmptyString.

(** A character inside a JSON string literal. *)
Definition escape_char (c : ascii) : string :=
  let n := nat_of_ascii c in
  if (n =? 34)%nat then BACKSLASH ++ Js.DQUOTE
  else if (n =? 92)%nat then BACKSLASH ++ BACKSLASH
  else if (n =? 8)%nat then BACKSLASH ++ "b"
  else if (n =? 12)%nat then BACKSLASH ++ "f"
  else if (n =? 10)%nat then BACKSLASH ++ "n"
  else if (n =? 13)%nat then BACKSLASH ++ "r"
  else if (n =? 9)%nat then BACKSLASH ++ "t"
  else if (n <? 32)%nat then
    BACKSLASH ++ "u00"
    ++ String (hex_lower (n / 16)) (String (hex_lower (n mod 16)) EmptyString)
  else String c EmptyString.

Fixpoint escape (s : string) : string :=
  match s with
  | EmptyString => EmptyString
  | String c s' => escape_char c ++ escape s'
  end.

Definition quote (s : string) : string := Js.DQUOTE ++ escape s ++ Js.DQUOTE.

(** [JSON.stringify(j, null, 2)] at the indentation [indent]. *)
Fixpoint stringify (indent : string) (j : json) : string :=
  match j with
  | JNull => "null"
  | JBool true => "true"
  | JBool false => "false"
  | JNum n => Js.of_Z n
  | JStr s => quote s
  | JArr [] => "[]"
  | JArr items =>
      let inner := indent ++ "  " in
      "[" ++ NL
      ++ (fix elements (xs : list json) : string :=
            match xs with
            | [] => EmptyString
            | [x] => inner ++ stringify inner x
            | x :: rest => inner ++ stringify inner x ++ "," ++ NL ++ elements rest
            end) items
      ++ NL ++ indent ++ "]"
  | JObj [] => "{}"
  | JObj fields =>
      let inner := indent ++ "  " in
      "{" ++ NL
      ++ (fix members (kvs : list (string * json)) : string :=
            match kvs with
            | [] => EmptyString
            | [(k, v)] => inner ++ quote k ++ ": " ++ stringify inner v
            | (k, v) :: rest =>
                inner ++ quote k ++ ": " ++ stringify inner v ++ "," ++ NL
                ++ members rest
            end) fields
      ++ NL ++ indent ++ "}"
  end.

(** [`${v}`] for a property that may be [undefined]. *)
Definition show (v : option json) : string :=
  match v with
  | Some j => to_String j
  | None => "undefined"
  end.

(** The arguments of a tool call. The model covers the calls whose arguments
    have the types that the catalog declares for them, a number being an
    integer; [None] is [undefined]. *)
Record Args : Type := mkArgs {
  arg_path : option string;
  arg_max : option Z;
  arg_revision : option Z;
  arg_changeId : option Z;
  arg_status : option string;
  arg_user : option string;
  arg_force : option bool;
  arg_maxChanges : option Z;
  arg_keywords : option (list string)
}.

Definition no_args : Args :=
  mkArgs None None None None None None None None None.

(** The names of the tools that [ListTools] announces. *)
Definition tool_names : list string :=
  [ "get_server_info"; "list_files"; "get_file_content"; "get_file_history";
    "list_changes"; "get_change_details"; "list_users"; "sync_files";
    "analyze_sensitive_changes" ].

(** A default parameter, [x = d]. *)
Definition default {X} (v : option X) (d : X) : X :=
  match v with
  | Some x => x
  | None => d
  end.

(** [!s] on a string that may be [undefined]. *)
Definition missing (s : option string) : bool :=
  match s with
  | Some x => Js.is_empty x
  | None => true
  end.

(** A number that is neither [undefined] nor zero. *)
Definition nonzero (n : option Z) : option Z :=
  match n with
  | Some x => if Z.eqb x 0 then None else Some x
  | None => None
  end.

(** A string parameter appended when it is truthy. *)
Definition when_given (name : string) (v : option string)
  : list (string * string) :=
  match v with
  | Some x => if Js.truthy x then [(name, x)] else []
  | None => []
  end.

Section Server.

Variable http : Http.
Variable apiBaseUrl : string.

Definition request (endpoint method : string) (data : option json) : T json :=
  lift (makeApiRequest http apiBaseUrl endpoint method data).

(** [result.data], of which [property] is read first: a [TypeError] when
    there is nothing to read it from. *)
Definition data_of (result : json) (property : string) : T json :=
  match result with
  | JNull =>
      tthrow (PlainError "Cannot read properties of null (reading 'data')")
  | _ =>
      match get "data" result with
      | None =>
          tthrow (PlainError ("Cannot read properties of undefined (reading '"
                              ++ property ++ "')"))
      | Some JNull =>
          tthrow (PlainError ("Cannot read properties of null (reading '"
                              ++ property ++ "')"))
      | Some data => tret data
      end
  end.

Definition getServerInfo : T json :=
  tbind (request "/info" "GET" None) (fun result =>
  match result with
  | JNull =>
      tthrow (PlainError "Cannot read properties of null (reading 'data')")
  | _ =>
      tret (text_content
              ("Perforce Server Information:" ++ NL
               ++ match get "data" result with
                  | Some data => stringify EmptyString data
                  | None => "undefined"
                  end))
  end).

Definition listFiles (path : option string) (max : option Z) : T json :=
  let path := default path "//depot/..." in
  let max := default max 100%Z in
  let params := search_params [("path", path); ("max", Js.of_Z max)] in
  tbind (request ("/files?" ++ params) "GET" None) (fun result =>
  tbind (data_of result "count") (fun data =>
  tret (text_content
          ("Files in " ++ path ++ " (showing " ++ show (get "count" data)
           ++ " files):" ++ NL ++ NL ++ show (get "rawOutput" data))))).

Definition getFileContent (path : option string) (revision : option Z)
  : T json :=
  if missing path then tthrow (McpError InvalidParams "File path is required")
  else
    let path := default path EmptyString in
    let params :=
      search_params
        ([("path", path)]
         ++ match nonzero revision with
            | Some r => [("revision", Js.of_Z r)]
            | None => []
            end)%list in
    tbind (request ("/files/content?" ++ params) "GET" None) (fun result =>
    tbind (data_of result "content") (fun data =>
    tret (text_content
            ("Content of " ++ path
             ++ match nonzero revision with
                | Some r => "#" ++ Js.of_Z r
                | None => EmptyString
                end
             ++ ":" ++ NL ++ NL ++ show (get "content" data))))).

Definition getFileHistory (path : option string) (max : option Z) : T json :=
  if missing path then tthrow (McpError InvalidParams "File path is required")
  else
    let path := default path EmptyString in
    let max := default max 10%Z in
    let params := search_params [("path", path); ("max", Js.of_Z max)] in
    tbind (request ("/files/history?" ++ params) "GET" None) (fun result =>
    tbind (data_of result "history") (fun data =>
    tret (text_content
            ("History for " ++ path ++ ":" ++ NL ++ NL
             ++ show (get "history" data))))).

Definition listChanges (max : option Z) (status user : option string)
  : T json :=
  let max := default max 20%Z in
  let params :=
    search_params
      ([("max", Js.of_Z max)] ++ when_given "status" status
       ++ when_given "user" user)%list in
  tbind (request ("/changes?" ++ params) "GET" None) (fun result =>
  tbind (data_of result "count") (fun data =>
  tret (text_content
          ("Recent Changes (" ++ show (get "count" data) ++ " entries):"
           ++ NL ++ NL ++ show (get "rawOutput" data))))).

Definition getChangeDetails (changeId : option Z) : T json :=
  match nonzero changeId with
  | None => tthrow (McpError InvalidParams "Change ID is required")
  | Some changeId =>
      tbind (request ("/changes/" ++ Js.of_Z changeId) "GET" None)
        (fun result =>
      tbind (data_of result "rawOutput") (fun data =>
      tret (text_content
              ("Details for Change " ++ Js.of_Z changeId ++ ":" ++ NL ++ NL
               ++ show (get "rawOutput" data)))))
  end.

Definition listUsers : T json :=
  tbind (request "/users" "GET" None) (fun result =>
  tbind (data_of result "count") (fun data =>
  tret (text_content
          ("Perforce Users (" ++ show (get "count" data) ++ " users):"
           ++ NL ++ NL ++ show (get "rawOutput" data))))).

Definition syncFiles (path : option string) (force : option bool) : T json :=
  let path := default path "//depot/..." in
  let force := default force false in
  tbind (request "/sync" "POST"
           (Some (JObj [("path", JStr path); ("force", JBool force)])))
    (fun result =>
  tbind (data_of result "rawOutput") (fun data =>
  tret (text_content
          ("Sync Results for " ++ path
           ++ (if force then " (forced)" else EmptyString)
           ++ ":" ++ NL ++ NL ++ show (get "rawOutput" data))))).

(** The [switch] on the name of the tool. *)
Definition dispatch (name : string) (args : Args) : T json :=
  if String.eqb name "get_server_info" then getServerInfo
  else if String.eqb name "list_files" then
    listFiles (arg_path args) (arg_max args)
  else if String.eqb name "get_file_content" then
    getFileContent (arg_path args) (arg_revision args)
  else if String.eqb name "get_file_history" then
    getFileHistory (arg_path args) (arg_max args)
  else if String.eqb name "list_changes" then
    listChanges (arg_max args) (arg_status args) (arg_user args)
  else if String.eqb name "get_change_details" then
    getChangeDetails (arg_changeId args)
  else if String.eqb name "list_users" then listUsers
  else if String.eqb name "sync_files" then
    syncFiles (arg_path args) (arg_force args)
  else if String.eqb name "analyze_sensitive_changes" then
    lift (analyzeSensitiveChanges http apiBaseUrl
            (arg_maxChanges args) (arg_keywords args))
  else tthrow (McpError MethodNotFound ("Unknown tool: " ++ name)).

(** The handler of [CallTool] requests: an [McpError] passes through, any
    other error is wrapped as an internal error (the line that the handler
    writes to the console first is left out). *)
Definition call_tool (name : string) (args : Args) : T json :=
  ttry (dispatch name args)
    (fun error =>
       match error with
       | McpError _ _ => tthrow error
       | PlainError message =>
           tthrow (McpError InternalError
                     ("Tool execution failed: " ++ message))
       end).

End Server.

End Tools.

(* ------------------------------------------------------------------ *)
(** *** Further definitions used to state the properties *)

(** A child process that settled by rejecting. *)
Definition rejected (backend : Backend) (e : Event) : bool :=
  match e with
  | Spawn cmd cwd timeout =>
      match backend cmd cwd timeout with
      | Rejected _ => true
      | Resolved _ _ => false
      end
  | _ => false
  end.

(** Some command of a computation failed. *)
Definition failed_run {A} (backend : Backend) (m : M A) : bool :=
  existsb (rejected backend) (trace_of m).

(** The request passes the validation of the operation. *)
Definition validated (op : Operation) (req : Request) : bool :=
  match validationResult (chains_of op) req with
  | [] => true
  | _ :: _ => false
  end.

(** The key under which an operation returns the text of the backend. *)
Definition text_field (op : Operation) : string :=
  match op with
  | GetFileContent => "content"
  | GetFileHistory => "history"
  | _ => "rawOutput"
  end.

(** [line.split(sep)] for a separator that is not empty: the pieces of
    [line] between the occurrences of [sep], found from left to right.
    [skip] counts the characters of an occurrence still to pass over. *)
Fixpoint split_sep (sep : string) (skip : nat) (line : string) : list string :=
  match line with
  | EmptyString => [EmptyString]
  | String c rest =>
      match skip with
      | S k => split_sep sep k rest
      | O =>
          if Js.startsWith line sep
          then EmptyString :: split_sep sep (String.length sep - 1) rest
          else match split_sep sep 0 rest with
               | [] => [String c EmptyString]
               | piece :: pieces => String c piece :: pieces
               end
      end
  end.

(** What a line of [p4 info] contributes to the info object: its trimmed
    key and value, when it has a separator. *)
Definition info_entry (line : string) : option (string * string) :=
  match split_first ": " line with
  | Some (key, value) => Some (Js.trim key, Js.trim value)
  | None => None
  end.

(** The value of the last line whose key is [k]. *)
Fixpoint last_value (k : string) (lines : list string) : option string :=
  match lines with
  | [] => None
  | line :: rest =>
      match last_value k rest with
      | Some v => Some v
      | None =>
          match info_entry line with
          | Some (k', v) => if String.eqb k' k then Some v else None
          | None => None
          end
      end
  end.

(** One turn of the loop over the lines of [p4 info]: the body of
    [parse_info]. *)
Definition info_step (info : list (string * json)) (line : string) :=
  match split_first ": " line with
  | Some (key, value) => assign (Js.trim key) (JStr (Js.trim value)) info
  | None => info
  end.

(** The keys of an object in the order of their enumeration: the array
    indices first, ascending, and after them the keys that are none. *)
Fixpoint enumeration_order (keys : list string) : bool :=
  match keys with
  | [] => true
  | k :: rest =>
      match array_index k with
      | Some i =>
          match rest with
          | k' :: _ =>
              match array_index k' with
              | Some j => (i <=? j)%Z
              | None => true
              end
          | [] => true
          end
          && enumeration_order rest
      | None =>
          forallb (fun k' =>
                     match array_index k' with
                     | Some _ => false
                     | None => true
                     end) rest
      end
  end.

(** The message with which an operation reports that its command failed. *)
Definition failure_message (op : Operation) : string :=
  match op with
  | GetInfo => "Failed to get server info"
  | ListFiles => "Failed to list files"
  | GetFileContent => "File not found or cannot be accessed"
  | GetFileHistory => "File history not found"
  | ListChanges => "Failed to list changes"
  | GetChangeDetails => "Change not found"
  | ListUsers => "Failed to list users"
  | SyncFiles => EmptyString
  end.

(** The HTTP client received the reply of the gateway to a request. *)
Definition served (m : M Response) (o : Adapter.AxiosOutcome) : Prop :=
  exists resp statusText,
    result_of m = inr resp /\
    o = Adapter.Replied (status resp) statusText (body resp).

(** What a tool that asks the gateway once may come to: one more call, and
    no [McpError]. *)
Definition asks_once (method : string) (m : Tools.T json) : Prop :=
  forall calls,
  exists url,
    snd (m calls) = (calls ++ [Adapter.mkCall method url])%list /\
    match fst (m calls) with
    | inl (Tools.McpError _ _) => False
    | _ => True
    end.

(* ================================================================== *)
(** * Properties *)

(* ------------------------------------------------------------------ *)
(** *** The executor *)

Lemma string_app_nil_r (s : string) : s ++ EmptyString = s.
Proof. induction s as [ | c s IH]; simpl; [ reflexivity | now rewrite IH ]. Qed.

Lemma string_app_assoc (a b c : string) : a ++ b ++ c = (a ++ b) ++ c.
Proof. induction a as [ | x a IH]; simpl; [ reflexivity | now rewrite IH ]. Qed.

Section ExecutorFacts.

Variable backend : Backend.

Lemma executeP4Command_run command options t :
  executeP4Command backend command options t
  = (inr (command_result (outcome_of backend command options)),
     (t ++ executor_trace backend command options)%list).
Proof.
  unfold executeP4Command, executor_trace, outcome_of, try_catch, bind,
    logger_info, logger_warn, logger_error, emit, execAsync, ret.
  destruct (backend _ _ _) as [stdout stderr | message]; simpl.
  - destruct (Js.truthy stderr && negb (Js.includes stderr "warning")); simpl;
      rewrite <- !app_assoc; reflexivity.
  - rewrite <- !app_assoc; reflexivity.
Qed.

Lemma spawn_in_executor_trace command options cmd cwd timeout :
  In (Spawn cmd cwd timeout) (executor_trace backend command options) ->
  backend cmd cwd timeout = outcome_of backend command options.
Proof.
  unfold executor_trace, outcome_of. simpl.
  intros [H | [H | H]]; try discriminate.
  - now inversion H.
  - destruct (backend _ _ _) as [stdout stderr | message].
    + apply in_app_or in H. destruct H as [H | H].
      * destruct (_ && _); simpl in H;
          [ destruct H as [H | []]; discriminate | contradiction ].
      * simpl in H. destruct H as [H | []]; discriminate.
    + simpl in H. destruct H as [H | []]; discriminate.
Qed.

Lemma bind_executeP4Command {A} command options (k : CommandResult -> M A) t :
  bind (executeP4Command backend command options) k t
  = k (command_result (outcome_of backend command options))
      (t ++ executor_trace backend command options)%list.
Proof. unfold bind. now rewrite executeP4Command_run. Qed.

End ExecutorFacts.

(** C3. For every command string and options, [executeP4Command] never
    throws: it returns a [CommandResult]. When the child process exits
    normally the result is [success] with the trimmed standard output and no
    error; when it fails (non-zero exit, timeout, spawn failure) the result
    is a failure with no output and the message of the failure. Hence
    exactly one of [output] and [error] is populated, and a failed result
    always has its error text. *)
Theorem executeP4Command_captures_every_outcome :
  forall (backend : Backend) (command : string) (options : ExecOptions)
         (t : Trace),
  exists (r : CommandResult) (t' : Trace),
    executeP4Command backend command options t = (inr r, t') /\
    match outcome_of backend command options with
    | Resolved stdout _ => r = mkResult true (Some (Js.trim stdout)) None
    | Rejected message => r = mkResult false None (Some message)
    end /\
    ((output r <> None /\ error r = None) \/
     (output r = None /\ error r <> None)) /\
    (success r = false -> error r <> None).
Proof.
  intros backend command options t.
  rewrite executeP4Command_run. do 2 eexists. split; [ reflexivity | ].
  destruct (outcome_of backend command options) as [stdout stderr | message];
    simpl.
  - split; [ reflexivity | ]. split; [ left; split; congruence | discriminate ].
  - split; [ reflexivity | ]. split; [ right; split; congruence | congruence ].
Qed.

(* ------------------------------------------------------------------ *)
(** *** Running a handler *)

Lemma spawned_executor_trace backend command options :
  spawned (executor_trace backend command options) = ["p4 " ++ command].
Proof.
  unfold executor_trace. simpl.
  destruct (backend _ _ _); simpl; [ | reflexivity ].
  destruct (_ && _); reflexivity.
Qed.

Ltac unfold_handlers :=
  unfold serve, files, content, history, changes, change, sync, route,
    info, users, health, files_handler, content_handler, history_handler,
    changes_handler, change_handler, sync_handler, internal_error,
    result_of, trace_of, run;
  cbv beta zeta.

Ltac unfold_handlers_in H :=
  unfold serve, files, content, history, changes, change, sync, route,
    info, users, health, files_handler, content_handler, history_handler,
    changes_handler, change_handler, sync_handler, internal_error,
    result_of, trace_of, run in H;
  cbv beta zeta in H.

Ltac step_executor :=
  unfold try_catch; rewrite bind_executeP4Command.

Lemma health_run backend now t :
  health backend now t
  = (inr (res_json
            (JObj [("status", JStr "healthy");
                   ("timestamp", JStr now);
                   ("perforce",
                    JStr (if success (command_result (outcome_of backend "info" no_options))
                          then "connected" else "disconnected"));
                   ("version", JStr "1.0.0")])),
     (t ++ executor_trace backend "info" no_options)%list).
Proof.
  unfold_handlers. step_executor. reflexivity.
Qed.

Opaque executor_trace outcome_of.

(* ------------------------------------------------------------------ *)
(** *** Failed commands *)

Ltac failed_validation H :=
  let cmd := fresh in let cwd := fresh in let tm := fresh in
  let msg := fresh in let Hin := fresh in
  destruct H as (cmd & cwd & tm & msg & Hin & _); simpl in Hin; contradiction.

Ltac settle H E :=
  let cmd := fresh "cmd" in let cwd := fresh "cwd" in let tm := fresh "tm" in
  let msg := fresh "msg" in let Hin := fresh "Hin" in let Hrej := fresh "Hrej" in
  destruct H as (cmd & cwd & tm & msg & Hin & Hrej);
  unfold try_catch in Hin; rewrite bind_executeP4Command in Hin;
  rewrite E in Hin; simpl in Hin;
  apply spawn_in_executor_trace in Hin;
  rewrite E in Hin; rewrite Hin in Hrej; try discriminate Hrej.

(** C1. When the backend command of an operation fails, a resource-oriented
    lookup (file content, file history, change detail) answers with a 404
    error envelope and a collection operation (info, file list, change list,
    user list) answers with a 500 error envelope; the envelope carries the
    error text of the failed command. *)
Theorem failed_command_maps_to_404_or_500 :
  forall (backend : Backend) (op : Operation) (req : Request),
    resource_lookup op || collection op = true ->
    command_failed backend (serve backend op req) ->
    exists resp message,
      result_of (serve backend op req) = inr resp /\
      get "success" (body resp) = Some (JBool false) /\
      get "error" (body resp) = Some (JStr message) /\
      has "message" (body resp) = true /\
      has "data" (body resp) = false /\
      (resource_lookup op = true -> status resp = 404) /\
      (collection op = true -> status resp = 500).
Proof.
  intros backend op req Hkind Hfail.
  unfold command_failed in Hfail.
  destruct op; try discriminate Hkind; unfold_handlers;
    unfold_handlers_in Hfail;
    try (unfold handleValidationErrors in *;
         destruct (validationResult _ req); [ | failed_validation Hfail ]);
    match goal with
    | |- context [executeP4Command backend ?c no_options] =>
        let command := fresh "command" in
        remember c as command in *;
        destruct (outcome_of backend command no_options)
          as [stdout stderr | message] eqn:E
    end;
    settle Hfail E;
    step_executor; rewrite E; simpl;
    do 2 eexists; repeat split; try reflexivity; try discriminate.
Qed.

(* ------------------------------------------------------------------ *)
(** *** Sync *)

(** C2, as amended. When the backend command of a sync request fails, the
    handler still answers 200 with [success] true and a data payload, and
    not an error envelope; the [rawOutput] of that payload is [null], since
    the executor keeps no output of a failed command, and the error text is
    not passed on. The payload also has the path and the force value that
    the command was built from. *)
Theorem sync_failure_is_reported_as_success :
  forall (backend : Backend) (req : Request),
    command_failed backend (sync backend req) ->
    exists resp,
      result_of (sync backend req) = inr resp /\
      status resp = 200 /\
      get "success" (body resp) = Some (JBool true) /\
      get2 "data" "rawOutput" (body resp) = Some JNull /\
      has "message" (body resp) = false /\
      has "error" (body resp) = false /\
      get2 "data" "path" (body resp)
      = Some (json_of_scalar
                (value_or (lookup "path" (req_body req))
                   (SStr "//depot/..."))) /\
      get2 "data" "forced" (body resp)
      = Some (json_of_scalar
                (value_or (lookup "force" (req_body req)) (SBool false))).
Proof.
  intros backend req Hfail.
  unfold command_failed in Hfail. unfold_handlers_in Hfail. unfold_handlers.
  unfold handleValidationErrors in *.
  destruct (validationResult _ req); [ | failed_validation Hfail ].
  match goal with
  | |- context [executeP4Command backend ?c no_options] =>
      remember c as command in *;
      destruct (outcome_of backend command no_options)
        as [stdout stderr | message] eqn:E
  end;
  settle Hfail E.
  step_executor. rewrite E. simpl.
  eexists. repeat split; reflexivity.
Qed.

Lemma sync_failure_is_reported_as_success_witness :
  exists resp,
    result_of (sync Scenario.unreachable Scenario.no_parameters) = inr resp /\
    status resp = 200 /\
    get "success" (body resp) = Some (JBool true) /\
    get2 "data" "rawOutput" (body resp) = Some JNull /\
    has "message" (body resp) = false /\
    has "error" (body resp) = false /\
    get2 "data" "path" (body resp) = Some (JStr "//depot/...") /\
    get2 "data" "forced" (body resp) = Some (JBool false).
Proof.
  apply (sync_failure_is_reported_as_success
           Scenario.unreachable Scenario.no_parameters).
  exists ("p4 sync " ++ Js.DQUOTE ++ "//depot/..." ++ Js.DQUOTE),
    "/workspace", 30000%Z.
  eexists. split; [ vm_compute; tauto | reflexivity ].
Defined.

(** C2, as stated, fails: with a server that cannot be reached the command
    of a sync request with no parameters fails, and the reply holds no
    backend text under [rawOutput]. *)
Lemma sync_failure_carries_no_backend_text :
  command_failed Scenario.unreachable
    (sync Scenario.unreachable Scenario.no_parameters) /\
  ~ sync_surfaces_output Scenario.unreachable Scenario.no_parameters.
Proof.
  assert (Hfail : command_failed Scenario.unreachable
                    (sync Scenario.unreachable Scenario.no_parameters)).
  { exists ("p4 sync " ++ Js.DQUOTE ++ "//depot/..." ++ Js.DQUOTE),
      "/workspace", 30000%Z.
    eexists. split; [ vm_compute; tauto | reflexivity ]. }
  split; [ exact Hfail | ].
  intros Hclaim. destruct (Hclaim Hfail) as (resp & text & Hrun & _ & Hraw).
  vm_compute in Hrun. inversion Hrun; subst resp. discriminate Hraw.
Qed.

(* ------------------------------------------------------------------ *)
(** *** The health check *)

(** C4, as amended. The health check runs the same [p4 info] command as
    the info endpoint and answers 200 with status, timestamp, perforce and
    version: the status is always healthy, and it is the perforce field
    that follows the success of the command (connected or disconnected).
    This is independent of the error shaping of the info endpoint, which
    answers 500 when the command fails. *)
Theorem health_reports_connection_in_perforce_field :
  forall (backend : Backend) (now : string),
  exists resp,
    result_of (health backend now) = inr resp /\
    spawned (trace_of (health backend now))
    = spawned (trace_of (info backend)) /\
    spawned (trace_of (health backend now)) = ["p4 info"] /\
    status resp = 200 /\
    body resp
    = JObj [("status", JStr "healthy");
            ("timestamp", JStr now);
            ("perforce",
             JStr (if success (command_result (outcome_of backend "info" no_options))
                   then "connected" else "disconnected"));
            ("version", JStr "1.0.0")] /\
    (success (command_result (outcome_of backend "info" no_options)) = false ->
     exists shaped,
       result_of (info backend) = inr shaped /\ status shaped = 500).
Proof.
  intros backend now. unfold result_of, trace_of, run.
  rewrite health_run. eexists. split; [ reflexivity | ].
  pose proof (spawned_executor_trace backend "info" no_options) as Hspawn.
  unfold_handlers. step_executor.
  destruct (outcome_of backend "info" no_options) eqn:E; simpl;
    repeat split; try assumption; try discriminate.
  intros _. eexists. split; reflexivity.
Qed.

(** C4, as stated, fails: when the server cannot be reached the command
    fails, yet the status is healthy, not degraded, and the payload has no
    [backendConnected] field. *)
Lemma health_is_healthy_when_unreachable :
  command_failed Scenario.unreachable
    (health Scenario.unreachable "2025-01-03T10:15:00.000Z") /\
  ~ health_status_follows_command Scenario.unreachable "2025-01-03T10:15:00.000Z".
Proof.
  split.
  - exists "p4 info", "/workspace", 30000%Z. eexists.
    split; [ vm_compute; tauto | reflexivity ].
  - intros (resp & Hrun & Hstatus & _).
    vm_compute in Hrun. inversion Hrun; subst resp. discriminate Hstatus.
Qed.

(** C10. The executor call of the health check always resolves, and the
    endpoint answers 200 with status healthy whether or not the command
    succeeded; only the perforce field tells the two apart. The 503
    unhealthy reply is never produced. *)
Theorem health_is_always_200_healthy :
  forall (backend : Backend) (now : string) (t : Trace),
    (exists r t', executeP4Command backend "info" no_options t = (inr r, t')) /\
    exists resp t',
      health backend now t = (inr resp, t') /\
      status resp = 200 /\
      get "status" (body resp) = Some (JStr "healthy") /\
      get "perforce" (body resp)
      = Some (JStr (match outcome_of backend "info" no_options with
                    | Resolved _ _ => "connected"
                    | Rejected _ => "disconnected"
                    end)) /\
      status resp <> 503 /\
      get "status" (body resp) <> Some (JStr "unhealthy").
Proof.
  intros backend now t. split.
  - rewrite executeP4Command_run. do 2 eexists. reflexivity.
  - rewrite health_run. do 2 eexists. split; [ reflexivity | ].
    destruct (outcome_of backend "info" no_options); simpl;
      repeat split; try reflexivity; discriminate.
Qed.

(* ------------------------------------------------------------------ *)
(** *** Validation *)

Lemma in_validationResult chains req c v :
  In c chains -> In v (chain_validators c) -> violated c req v = true ->
  In (error_of c req v) (validationResult chains req).
Proof.
  intros Hc Hv Hviolated. unfold validationResult, run_chain.
  apply in_flat_map. exists c. split; [ assumption | ].
  apply in_map, filter_In. now split.
Qed.

Lemma route_rejects chains handler req e errors t :
  validationResult chains req = e :: errors ->
  route chains handler req t
  = (inr (res_status_json 400
            (JObj [("success", JBool false);
                   ("message", JStr "Validation errors");
                   ("errors", JArr (map json_of_error (e :: errors)))])), t).
Proof.
  intros H. unfold route, handleValidationErrors. now rewrite H.
Qed.

Lemma serve_is_route backend op req :
  exists handler, serve backend op req = route (chains_of op) handler req.
Proof.
  destruct op; simpl; eexists; reflexivity.
Qed.

(** C5. When a parameter of a request violates a constraint its operation
    declares, the reply is a 400 envelope whose [errors] are all the
    violations of the request, none left out, and there is at least one; no
    effect took place, in particular no backend command was run. *)
Theorem violations_are_reported_in_full_before_any_command :
  forall (backend : Backend) (op : Operation) (req : Request),
    (exists c v, In c (chains_of op) /\ In v (chain_validators c) /\
                 violated c req v = true) ->
    exists resp,
      run (serve backend op req) = (inr resp, []) /\
      spawned (trace_of (serve backend op req)) = [] /\
      status resp = 400 /\
      get "success" (body resp) = Some (JBool false) /\
      has "data" (body resp) = false /\
      get "errors" (body resp)
      = Some (JArr (map json_of_error (validationResult (chains_of op) req))) /\
      validationResult (chains_of op) req <> [] /\
      (forall c v, In c (chains_of op) -> In v (chain_validators c) ->
                   violated c req v = true ->
                   In (error_of c req v) (validationResult (chains_of op) req)).
Proof.
  intros backend op req (c & v & Hc & Hv & Hviolated).
  pose proof (in_validationResult _ req _ _ Hc Hv Hviolated) as Hin.
  destruct (serve_is_route backend op req) as [handler Hroute].
  unfold trace_of, run. rewrite Hroute.
  destruct (validationResult (chains_of op) req) as [ | e errors] eqn:E;
    [ contradiction | ].
  rewrite (route_rejects _ _ _ _ _ _ E).
  eexists. repeat split; try reflexivity; try discriminate.
  intros c' v' Hc' Hv' Hviolated'. rewrite <- E.
  now apply in_validationResult.
Qed.

(* ------------------------------------------------------------------ *)
(** *** The envelope *)

(** C9. Every reply of an operation handler, behind its validation, is an
    envelope: either [success] is true and it carries [data], or [success]
    is false and it carries no [data] but a [message] and [error] or
    [errors]. The same holds of the replies to unhandled errors. *)
Theorem envelope_carries_data_iff_success :
  (forall (backend : Backend) (op : Operation) (req : Request),
   exists resp,
     result_of (serve backend op req) = inr resp /\
     well_formed_envelope resp) /\
  (forall (development : bool) (message : Exn),
     well_formed_envelope (error_middleware development message)).
Proof.
  split.
  - intros backend op req. unfold well_formed_envelope.
    destruct op; unfold_handlers;
      try (unfold handleValidationErrors;
           destruct (validationResult _ req);
           [ | eexists; split; [ reflexivity | right; repeat split; reflexivity ] ]);
      step_executor;
      match goal with
      | |- context [outcome_of backend ?c no_options] =>
          destruct (outcome_of backend c no_options)
      end; simpl;
      eexists; (split; [ reflexivity | ]);
      first [ left; repeat split; reflexivity | right; repeat split; reflexivity ].
  - intros development message. right. repeat split; reflexivity.
Qed.

(** The reply to an unmatched route carries no [data] either; beside its
    [message] it names the documentation endpoint. *)
Lemma not_found_carries_no_data :
  status not_found = 404 /\
  get "success" (body not_found) = Some (JBool false) /\
  has "data" (body not_found) = false /\
  has "message" (body not_found) = true /\
  get "availableEndpoints" (body not_found) = Some (JStr "/api/docs").
Proof. repeat split; reflexivity. Qed.

(* ------------------------------------------------------------------ *)
(** *** Counting the lines of a listing *)

Lemma trimEnd_empty s : Js.is_empty (Js.trimEnd s) = negb (has_ink s).
Proof.
  induction s as [ | c s IH]; simpl; [ reflexivity | ].
  destruct (Js.is_whitespace c); simpl.
  - rewrite IH. destruct (has_ink s); reflexivity.
  - reflexivity.
Qed.

Lemma has_ink_trimStart s : has_ink (Js.trimStart s) = has_ink s.
Proof.
  induction s as [ | c s IH]; simpl; [ reflexivity | ].
  destruct (Js.is_whitespace c) eqn:E; simpl; [ exact IH | now rewrite E ].
Qed.

Lemma trim_truthy s : Js.truthy (Js.trim s) = has_ink s.
Proof.
  unfold Js.truthy, Js.trim. rewrite trimEnd_empty, has_ink_trimStart.
  apply negb_involutive.
Qed.

Lemma split_lf_nonempty s : Js.split_lf s <> [].
Proof.
  destruct s as [ | c s]; simpl; [ discriminate | ].
  destruct (Ascii.eqb c Js.LF); [ discriminate | ].
  destruct (Js.split_lf s); discriminate.
Qed.

Lemma scan_lines_split seen s :
  scan_lines seen s
  = match Js.split_lf s with
    | [] => 0
    | l :: ls => (if seen || has_ink l then 1 else 0) + inked_lines ls
    end.
Proof.
  revert seen. induction s as [ | c s IH]; intros seen; simpl.
  - rewrite orb_false_r. unfold inked_lines. simpl. lia.
  - destruct (Ascii.eqb c Js.LF).
    + rewrite orb_false_r, (IH false). simpl.
      destruct (Js.split_lf s) as [ | l ls] eqn:E;
        [ now apply split_lf_nonempty in E | ].
      unfold inked_lines. simpl. rewrite trim_truthy.
      destruct (has_ink l); reflexivity.
    + rewrite IH.
      destruct (Js.split_lf s) as [ | l ls] eqn:E;
        [ now apply split_lf_nonempty in E | ].
      simpl. now rewrite orb_assoc.
Qed.

Lemma count_lines_nonblank s : count_lines s = nonblank_lines s.
Proof.
  unfold nonblank_lines. rewrite scan_lines_split. unfold count_lines.
  destruct (Js.split_lf s) as [ | l ls]; [ reflexivity | ].
  simpl. rewrite trim_truthy. unfold inked_lines.
  destruct (has_ink l); reflexivity.
Qed.

(** C6. In a successful reply of a listing operation (file list, change
    list, user list) the [count] is the number of non-blank lines of the
    [rawOutput] returned beside it. *)
Theorem listing_count_is_number_of_nonblank_lines :
  forall (backend : Backend) (op : Operation) (req : Request) (resp : Response),
    listing op = true ->
    result_of (serve backend op req) = inr resp ->
    get "success" (body resp) = Some (JBool true) ->
    exists raw,
      get2 "data" "rawOutput" (body resp) = Some (JStr raw) /\
      get2 "data" "count" (body resp)
      = Some (JNum (Z.of_nat (nonblank_lines raw))).
Proof.
  intros backend op req resp Hop Hrun Hsuccess.
  destruct op; try discriminate Hop; unfold_handlers_in Hrun;
    try (unfold handleValidationErrors in Hrun;
         destruct (validationResult _ req);
         [ | inversion Hrun; subst resp; discriminate Hsuccess ]);
    unfold try_catch in Hrun; rewrite bind_executeP4Command in Hrun;
    match type of Hrun with
    | context [outcome_of backend ?c no_options] =>
        destruct (outcome_of backend c no_options) as [stdout stderr | message]
    end; simpl in Hrun; inversion Hrun; subst resp;
    try discriminate Hsuccess;
    exists (Js.trim stdout); rewrite <- count_lines_nonblank; split; reflexivity.
Qed.

Lemma listing_count_witness :
  result_of (serve Scenario.depot ListChanges Scenario.no_parameters)
  = inr Scenario.listed_changes /\
  exists raw,
    get2 "data" "rawOutput" (body Scenario.listed_changes) = Some (JStr raw) /\
    get2 "data" "count" (body Scenario.listed_changes)
    = Some (JNum (Z.of_nat (nonblank_lines raw))).
Proof.
  split; [ reflexivity | ].
  apply (listing_count_is_number_of_nonblank_lines Scenario.depot ListChanges
           Scenario.no_parameters Scenario.listed_changes);
    reflexivity.
Defined.

(* ------------------------------------------------------------------ *)
(** *** Defaults *)

Ltac run_validated Hvalid Homitted :=
  unfold_handlers; unfold handleValidationErrors; rewrite Hvalid, Homitted;
  step_executor;
  match goal with
  | |- context [outcome_of ?backend ?c no_options] =>
      destruct (outcome_of backend c no_options)
  end; simpl; rewrite ?spawned_executor_trace.

(** C7. Once a request has passed validation, an omitted optional parameter
    takes its default in the command that is run and in the fields echoed:
    100 for the [max] of a file list, 20 for a change list, 10 for a file
    history, [//depot/...] for the path of a file list and of a sync (echoed
    as [data.path]), and [false] for the [force] of a sync; [force] set to
    true adds [-f] to the command and is echoed as [forced]. *)
Theorem omitted_parameters_take_their_defaults :
  forall (backend : Backend) (req : Request),
    (validationResult files_chains req = [] ->
     (lookup "max" (req_query req) = None ->
      spawned (trace_of (files backend req))
      = ["p4 files -m 100 " ++ Js.DQUOTE
         ++ or_default (lookup "path" (req_query req)) "//depot/..."
         ++ Js.DQUOTE]) /\
     (lookup "path" (req_query req) = None ->
      spawned (trace_of (files backend req))
      = ["p4 files -m " ++ or_default (lookup "max" (req_query req)) "100"
         ++ " " ++ Js.DQUOTE ++ "//depot/..." ++ Js.DQUOTE] /\
      forall resp,
        result_of (files backend req) = inr resp ->
        get "success" (body resp) = Some (JBool true) ->
        get2 "data" "path" (body resp) = Some (JStr "//depot/..."))) /\
    (validationResult changes_chains req = [] ->
     lookup "max" (req_query req) = None ->
     spawned (trace_of (changes backend req))
     = ["p4 changes -m 20"
        ++ match lookup "status" (req_query req) with
           | Some status =>
               if Js.truthy status then " -s " ++ status else EmptyString
           | None => EmptyString
           end
        ++ match lookup "user" (req_query req) with
           | Some user => if Js.truthy user then " -u " ++ user else EmptyString
           | None => EmptyString
           end]) /\
    (validationResult history_chains req = [] ->
     lookup "max" (req_query req) = None ->
     spawned (trace_of (history backend req))
     = ["p4 filelog -m 10 " ++ Js.DQUOTE
        ++ template (option_map SStr (lookup "path" (req_query req)))
        ++ Js.DQUOTE]) /\
    (validationResult sync_chains req = [] ->
     exists resp,
       result_of (sync backend req) = inr resp /\
       get "success" (body resp) = Some (JBool true) /\
       (lookup "path" (req_body req) = None ->
        spawned (trace_of (sync backend req))
        = ["p4 sync"
           ++ (if truthy_value (lookup "force" (req_body req)) then " -f"
               else EmptyString)
           ++ " " ++ Js.DQUOTE ++ "//depot/..." ++ Js.DQUOTE] /\
        get2 "data" "path" (body resp) = Some (JStr "//depot/...")) /\
       (lookup "force" (req_body req) = None ->
        spawned (trace_of (sync backend req))
        = ["p4 sync " ++ Js.DQUOTE
           ++ template (Some (value_or (lookup "path" (req_body req))
                                (SStr "//depot/...")))
           ++ Js.DQUOTE] /\
        get2 "data" "forced" (body resp) = Some (JBool false)) /\
       (lookup "force" (req_body req) = Some (SBool true) ->
        spawned (trace_of (sync backend req))
        = ["p4 sync -f " ++ Js.DQUOTE
           ++ template (Some (value_or (lookup "path" (req_body req))
                                (SStr "//depot/...")))
           ++ Js.DQUOTE] /\
        get2 "data" "forced" (body resp) = Some (JBool true))).
Proof.
  intros backend req. repeat split.
  - intros Hmax. run_validated H Hmax; reflexivity.
  - run_validated H H0; reflexivity.
  - intros resp. revert H0. unfold_handlers. unfold handleValidationErrors.
    rewrite H. intros Hpath. step_executor.
    destruct (outcome_of backend _ no_options); simpl;
      intros Hrun; inversion Hrun; subst resp; simpl;
      [ now rewrite Hpath | discriminate ].
  - intros Hvalid Hmax.
    run_validated Hvalid Hmax;
      destruct (lookup "status" (req_query req)) as [s | ];
      destruct (lookup "user" (req_query req)) as [u | ];
      try destruct (Js.truthy s); try destruct (Js.truthy u); simpl;
      repeat (f_equal; try reflexivity);
      rewrite <- ?string_app_assoc, ?string_app_nil_r; reflexivity.
  - intros Hvalid Hmax. run_validated Hvalid Hmax; reflexivity.
  - intros Hvalid.
    unfold_handlers. unfold handleValidationErrors. rewrite Hvalid.
    step_executor. simpl. rewrite !spawned_executor_trace.
    eexists. split; [ reflexivity | ]. split; [ reflexivity | ].
    repeat split.
    + rewrite H.
      destruct (lookup "force" (req_body req)) as [[ | [ | ] | n | s] | ];
        try reflexivity.
      * cbn [value_or truthy_value].
        destruct (Z.eqb n 0) eqn:E; cbn [negb]; cbv iota; cbn [truthy_value];
          rewrite ?E; reflexivity.
      * cbn [value_or truthy_value]. destruct s; reflexivity.
    + rewrite H. reflexivity.
    + rewrite H. reflexivity.
    + rewrite H. reflexivity.
    + rewrite H. reflexivity.
    + rewrite H. reflexivity.
Qed.

(* ------------------------------------------------------------------ *)
(** *** Strings: prefixes, substrings and letter case *)

Lemma startsWith_app s p : Js.startsWith (p ++ s) p = true.
Proof.
  induction p as [ | c p IH]; simpl; [ now destruct s | ].
  now rewrite Ascii.eqb_refl.
Qed.

Lemma startsWith_split s p :
  Js.startsWith s p = true -> exists rest, s = p ++ rest.
Proof.
  revert s. induction p as [ | b p IH]; intros s H.
  - exists s. reflexivity.
  - destruct s as [ | a s]; simpl in H; [ discriminate | ].
    apply andb_prop in H. destruct H as [Hab Hrest].
    apply Ascii.eqb_eq in Hab. subst b.
    destruct (IH _ Hrest) as [rest ->]. now exists rest.
Qed.












(* ------------------------------------------------------------------ *)
(** *** The scan for sensitive changes *)

Lemma span_digits_spec s :
  s = fst (Js.span_digits s) ++ snd (Js.span_digits s) /\
  Js.all_digits (fst (Js.span_digits s)) = true /\
  match snd (Js.span_digits s) with
  | EmptyString => True
  | String c _ => Js.is_digit c = false
  end.
Proof.
  induction s as [ | c s (IH1 & IH2 & IH3)]; simpl; [ now repeat split | ].
  destruct (Js.is_digit c) eqn:E.
  - destruct (Js.span_digits s) as [d r]; simpl in *.
    rewrite E. repeat split; [ now f_equal | assumption | assumption ].
  - simpl. now repeat split.
Qed.

Lemma span_digits_app digits rest :
  Js.all_digits digits = true ->
  match rest with
  | EmptyString => True
  | String c _ => Js.is_digit c = false
  end ->
  Js.span_digits (digits ++ rest) = (digits, rest).
Proof.
  intros Hdigits Hrest. induction digits as [ | c digits IH]; simpl in *.
  - destruct rest as [ | c rest]; [ reflexivity | ]. simpl. now rewrite Hrest.
  - apply andb_prop in Hdigits. destruct Hdigits as [Hc Hdigits].
    now rewrite Hc, (IH Hdigits).
Qed.

(** The doubles among the integers: rounding leaves the integers up to 2^53
    as they are, and takes no other integer below 2^53. *)
Lemma safe_integer_spec n :
  Js.safe_integer n = true <-> (Z.abs n <= 9007199254740991)%Z.
Proof. unfold Js.safe_integer. apply Z.leb_le. Qed.

Lemma to_double_exact n :
  (Z.abs n <= 9007199254740992)%Z -> Js.to_double n = n.
Proof.
  intros H. unfold Js.to_double. cbv zeta.
  apply Z.leb_le in H. now rewrite H.
Qed.

Lemma to_double_safe n : Js.safe_integer n = true -> Js.to_double n = n.
Proof.
  intros H. apply safe_integer_spec in H. apply to_double_exact. lia.
Qed.

Lemma to_double_large n :
  (9007199254740992 < Z.abs n)%Z ->
  (9007199254740992 <= Z.abs (Js.to_double n))%Z.
Proof.
  intros H. unfold Js.to_double. cbv zeta.
  destruct (Z.leb_spec (Z.abs n) 9007199254740992) as [Hle | _]; [ lia | ].
  set (a := Z.abs n) in *.
  assert (Hlog : (53 <= Z.log2 a)%Z).
  { change 53%Z with (Z.log2 9007199254740992). apply Z.log2_le_mono. lia. }
  set (e := (Z.log2 a - 52)%Z).
  assert (He : (1 <= e)%Z) by (unfold e; lia).
  assert (Hpow : (2 <= 2 ^ e)%Z).
  { change 2%Z with (2 ^ 1)%Z at 1. apply Z.pow_le_mono_r; lia. }
  assert (Hq : (4503599627370496 <= Z.shiftr a e)%Z).
  { rewrite Z.shiftr_div_pow2 by lia.
    apply Z.div_le_lower_bound; [ lia | ].
    destruct (Z.log2_spec a) as [Hlow _]; [ lia | ].
    replace (Z.log2 a) with (e + 52)%Z in Hlow by (unfold e; lia).
    rewrite Z.pow_add_r in Hlow by lia.
    change (2 ^ 52)%Z with 4503599627370496%Z in Hlow. lia. }
  set (q := Z.shiftr a e) in *.
  match goal with
  | |- context [Z.shiftl (if ?b then _ else _) e] =>
      set (q' := if b then (q + 1)%Z else q);
      assert (Hq' : (4503599627370496 <= q')%Z)
        by (unfold q'; destruct b; lia)
  end.
  rewrite Z.shiftl_mul_pow2 by lia.
  rewrite Z.abs_mul.
  assert (Hsgn : Z.abs (Z.sgn n) = 1%Z) by (destruct n; [ lia | reflexivity .. ]).
  rewrite Hsgn. rewrite Z.abs_eq by nia. nia.
Qed.

Lemma to_double_safe_inv n :
  Js.safe_integer (Js.to_double n) = true -> Js.to_double n = n.
Proof.
  intros H. apply safe_integer_spec in H.
  destruct (Z.le_gt_cases (Z.abs n) 9007199254740992) as [Hn | Hn].
  - now apply to_double_exact.
  - apply to_double_large in Hn. lia.
Qed.

Lemma change_number_names_change line m :
  Adapter.change_number line = Some m
  <-> exists n, names_change line n /\ m = Js.to_double n.
Proof.
  unfold Adapter.change_number, names_change. split.
  - destruct (Js.startsWith line "Change ") eqn:Hprefix; [ | discriminate ].
    apply startsWith_split in Hprefix. destruct Hprefix as [rest ->].
    change (drop 7 ("Change " ++ rest)) with rest.
    destruct (span_digits_spec rest) as (Happ & Hdigits & Hrest).
    destruct (Js.span_digits rest) as [d r]; simpl in *.
    destruct d as [ | c d]; [ discriminate | ].
    cbn [Js.truthy Js.is_empty negb]. intros H. inversion H.
    exists (Js.digits_value 0 (String c d)). split; [ | reflexivity ].
    exists (String c d), r.
    repeat split; try assumption; [ now rewrite Happ | discriminate ].
  - intros (n & (digits & rest & -> & Hdigits & Hne & Hrest & ->) & ->).
    rewrite startsWith_app.
    change (drop 7 ("Change " ++ digits ++ rest)) with (digits ++ rest).
    rewrite (span_digits_app _ _ Hdigits Hrest).
    destruct digits; [ contradiction | reflexivity ].
Qed.

Lemma change_number_safe line n :
  Js.safe_integer n = true ->
  Adapter.change_number line = Some n <-> names_change line n.
Proof.
  intros Hsafe. rewrite change_number_names_change. split.
  - intros (v & Hv & ->). rewrite (to_double_safe_inv v Hsafe). exact Hv.
  - intros Hn. exists n. split; [ exact Hn | ].
    symmetry. now apply to_double_safe.
Qed.

Section ScanFacts.

Import Adapter ScanSpec.

Variable http : Http.
Variable base : string.
Variable keywords : list string.

Ltac finish_step := first [ reflexivity | exact I | simpl; lia ].

Lemma analyze_change_run st changeId calls :
  exists st',
    analyze_change http base keywords st changeId calls
    = (inr st', (calls ++ [detail_call base changeId])%list) /\
    foundSensitiveChanges st'
    = (foundSensitiveChanges st
       + if flagged http base keywords changeId then 1 else 0)%nat /\
    match change_details http base changeId with
    | Some details =>
        if found_keywords_nonempty keywords details
        then analysisResults st'
             = analysisResults st ++ flag_paragraph keywords changeId details
        else st' = st
    | None => True
    end.
Proof.
  unfold analyze_change, atry, abind, makeApiRequest, flagged, change_details,
    detail_call, found_keywords_nonempty, rawOutput_of, get2, flag_paragraph.
  destruct (http "GET" (base ++ "/changes/" ++ Js.of_Z changeId) None)
    as [status statusText reply | | message].
  - destruct (is_2xx status).
    + destruct reply as [ | b | n | t | items | top];
        try (simpl; eexists; repeat split; finish_step).
      cbn [get].
      destruct (lookup "data" top) as [data | ].
      * destruct data; simpl;
          try (eexists; repeat split; finish_step).
        destruct (lookup "rawOutput" fields) as [[ | | | text | | ] | ]; simpl;
          try (eexists; repeat split; finish_step).
        destruct (found_keywords keywords text); simpl;
          eexists; repeat split; finish_step.
      * simpl. eexists; repeat split; finish_step.
    + simpl. eexists; repeat split; finish_step.
  - simpl. eexists; repeat split; finish_step.
  - simpl. eexists; repeat split; finish_step.
Qed.

Lemma for_each_run changeNumbers : forall st calls,
  exists st',
    for_each (analyze_change http base keywords) changeNumbers st calls
    = (inr st', (calls ++ map (detail_call base) changeNumbers)%list) /\
    foundSensitiveChanges st'
    = (foundSensitiveChanges st
       + List.length (filter (flagged http base keywords) changeNumbers))%nat.
Proof.
  induction changeNumbers as [ | changeId rest IH]; intros st calls; simpl.
  - exists st. unfold aret. rewrite app_nil_r. split; [ reflexivity | lia ].
  - destruct (analyze_change_run st changeId calls) as (st1 & Hstep & Hfound & _).
    unfold abind at 1. rewrite Hstep.
    destruct (IH st1 (calls ++ [detail_call base changeId])%list)
      as (st' & Hrest & Hfound').
    exists st'. rewrite Hrest, <- app_assoc. split; [ reflexivity | ].
    rewrite Hfound', Hfound.
    destruct (flagged http base keywords changeId); simpl; lia.
Qed.

Lemma scan_run maxChanges status statusText reply changesText calls :
  http "GET" (base ++ "/changes?max=" ++ Js.of_Z maxChanges) None
  = Replied status statusText reply ->
  is_2xx status = true ->
  get2 "data" "rawOutput" reply = Some (JStr changesText) ->
  exists st,
    scan http base maxChanges keywords calls
    = (inr (change_numbers changesText, st),
       (calls
        ++ mkCall "GET" (base ++ "/changes?max=" ++ Js.of_Z maxChanges)
        :: map (detail_call base) (change_numbers changesText))%list) /\
    foundSensitiveChanges st
    = List.length (filter (flagged http base keywords)
                     (change_numbers changesText)).
Proof.
  intros Hhttp Hok Hraw.
  unfold scan, abind at 1, makeApiRequest. rewrite Hhttp, Hok.
  unfold abind at 1, rawOutput_of. unfold get2 in Hraw.
  destruct reply as [ | b | n | t | items | top]; try discriminate.
  cbn [get] in *.
  destruct (lookup "data" top) as [data | ]; [ | discriminate ].
  destruct data; try discriminate. cbv beta iota. cbn [get] in *.
  rewrite Hraw.
  unfold aret at 1. unfold abind.
  match goal with
  | |- context [for_each _ _ ?st0 ?calls0] =>
      destruct (for_each_run (change_numbers changesText) st0 calls0)
        as (st & Hloop & Hfound)
  end.
  rewrite Hloop. exists st. unfold aret.
  rewrite <- app_assoc. split; [ reflexivity | exact Hfound ].
Qed.


End ScanFacts.





(* ------------------------------------------------------------------ *)
(** *** The theorems at work on the small depot *)

Lemma failed_lookup_witness :
  exists resp message,
    result_of (serve Scenario.unreachable GetFileContent Scenario.fixed_file)
    = inr resp /\
    get "success" (body resp) = Some (JBool false) /\
    get "error" (body resp) = Some (JStr message) /\
    status resp = 404.
Proof.
  assert (Hfail : command_failed Scenario.unreachable
                    (serve Scenario.unreachable GetFileContent
                       Scenario.fixed_file)).
  { exists ("p4 print -q " ++ Js.DQUOTE ++ "//depot/main/fixed.txt" ++ Js.DQUOTE),
      "/workspace", 30000%Z.
    eexists. split; [ vm_compute; tauto | reflexivity ]. }
  destruct (failed_command_maps_to_404_or_500
              Scenario.unreachable GetFileContent Scenario.fixed_file
              eq_refl Hfail)
    as (resp & message & Hrun & Hsuccess & Herror & _ & _ & Hlookup & _).
  exists resp, message. repeat split; try assumption.
  apply Hlookup. reflexivity.
Defined.

Lemma missing_path_witness :
  exists resp,
    run (serve Scenario.depot GetFileContent Scenario.no_parameters)
    = (inr resp, []) /\
    status resp = 400 /\
    get "errors" (body resp)
    = Some (JArr (map json_of_error
                    (validationResult content_chains Scenario.no_parameters))) /\
    List.length (validationResult content_chains Scenario.no_parameters) = 2.
Proof.
  assert (Hviolated :
            exists c v, In c (chains_of GetFileContent) /\
                        In v (chain_validators c) /\
                        violated c Scenario.no_parameters v = true).
  { exists (required_field InQuery "path"
              [mkValidator NotEmpty invalid_value;
               mkValidator IsString "Path is required and must be a string"]),
      (mkValidator NotEmpty invalid_value).
    split; [ now left | ]. split; [ now left | reflexivity ]. }
  destruct (violations_are_reported_in_full_before_any_command
              Scenario.depot GetFileContent Scenario.no_parameters Hviolated)
    as (resp & Hrun & _ & Hstatus & _ & _ & Herrors & _).
  exists resp. repeat split; assumption.
Defined.

Lemma defaults_witness :
  spawned (trace_of (files Scenario.depot Scenario.no_parameters))
  = ["p4 files -m 100 " ++ Js.DQUOTE ++ "//depot/..." ++ Js.DQUOTE] /\
  spawned (trace_of (changes Scenario.depot Scenario.no_parameters))
  = ["p4 changes -m 20"] /\
  spawned (trace_of (changes Scenario.depot
                       (Scenario.request
                          [("status", "pending"); ("user", "super")] [] [])))
  = ["p4 changes -m 20 -s pending -u super"] /\
  exists resp,
    result_of (sync Scenario.depot Scenario.forced_sync) = inr resp /\
    spawned (trace_of (sync Scenario.depot Scenario.forced_sync))
    = ["p4 sync -f " ++ Js.DQUOTE ++ "//depot/..." ++ Js.DQUOTE] /\
    get2 "data" "path" (body resp) = Some (JStr "//depot/...") /\
    get2 "data" "forced" (body resp) = Some (JBool true).
Proof.
  destruct (omitted_parameters_take_their_defaults
              Scenario.depot Scenario.no_parameters)
    as (Hfiles & Hchanges & _).
  destruct (omitted_parameters_take_their_defaults
              Scenario.depot
              (Scenario.request [("status", "pending"); ("user", "super")]
                 [] []))
    as (_ & Hfiltered & _).
  destruct (omitted_parameters_take_their_defaults
              Scenario.depot Scenario.forced_sync)
    as (_ & _ & _ & Hsync).
  split; [ now apply Hfiles | ].
  split; [ exact (Hchanges eq_refl eq_refl) | ].
  split; [ exact (Hfiltered eq_refl eq_refl) | ].
  destruct (Hsync eq_refl) as (resp & Hrun & _ & Hpath & _ & Hforce).
  exists resp. split; [ exact Hrun | ].
  split; [ exact (proj1 (Hforce eq_refl)) | ].
  split; [ exact (proj2 (Hpath eq_refl)) | exact (proj2 (Hforce eq_refl)) ].
Defined.

(* ================================================================== *)
(** * Further properties of the gateway and of the adapter *)

(* ------------------------------------------------------------------ *)
(** *** Commands and statuses of the routes *)

Lemma rejected_in_executor_trace backend command options :
  existsb (rejected backend) (executor_trace backend command options)
  = match outcome_of backend command options with
    | Rejected _ => true
    | Resolved _ _ => false
    end.
Proof.
  with_strategy transparent [executor_trace outcome_of]
    (unfold executor_trace, outcome_of).
  simpl. destruct (backend _ _ _) as [stdout stderr | message]; simpl.
  - rewrite existsb_app. simpl. destruct (_ && _); reflexivity.
  - reflexivity.
Qed.

Lemma spawns_of_executor_trace backend command options :
  filter is_spawn (executor_trace backend command options)
  = [Spawn ("p4 " ++ command)
       (or_default (opt_cwd options) "/workspace")
       (or_default_Z (opt_timeout options) 30000)].
Proof.
  with_strategy transparent [executor_trace] (unfold executor_trace).
  simpl. destruct (backend _ _ _); simpl; [ | reflexivity ].
  rewrite filter_app. destruct (_ && _); reflexivity.
Qed.

(** X1. Each of the eight operations spawns exactly one child process, a
    [p4] command in [/workspace] with a timeout of 30000 ms, when the
    request passes the validation of its route, and spawns none when it
    does not. *)
Theorem each_request_runs_one_command_or_none :
  forall (backend : Backend) (op : Operation) (req : Request),
  exists command,
    filter is_spawn (trace_of (serve backend op req))
    = if validated op req
      then [Spawn ("p4 " ++ command) "/workspace" 30000%Z]
      else [].
Proof.
  intros backend op req. unfold validated.
  destruct op; unfold_handlers; simpl chains_of;
    try (unfold handleValidationErrors;
         destruct (validationResult _ req);
         [ | exists EmptyString; reflexivity ]);
    step_executor;
    match goal with
    | |- context [executeP4Command _ _ _] => fail 1
    | |- context [outcome_of backend ?c no_options] =>
        exists c; destruct (outcome_of backend c no_options)
    end; simpl; apply spawns_of_executor_trace.
Qed.

(** X2. The status of every reply of the eight operations is determined
    by two facts: 400 when the request fails validation; otherwise 404 (file
    content, file history, change details) or 500 (info, files, changes,
    users) when the command failed, and 200 in every other case, a failed
    sync included. The reply of the [catch] blocks, Internal server error,
    is never sent. *)
Theorem status_follows_validation_and_command :
  forall (backend : Backend) (op : Operation) (req : Request),
  exists resp,
    result_of (serve backend op req) = inr resp /\
    status resp
    = (if negb (validated op req) then 400
       else if failed_run backend (serve backend op req) then
              if resource_lookup op then 404
              else if collection op then 500
              else 200
            else 200) /\
    get "message" (body resp) <> Some (JStr "Internal server error").
Proof.
  intros backend op req. unfold validated, failed_run.
  destruct op; unfold_handlers; simpl chains_of;
    try (unfold handleValidationErrors;
         destruct (validationResult _ req);
         [ | eexists; repeat split; try reflexivity; discriminate ]);
    step_executor;
    match goal with
    | |- context [outcome_of backend ?c no_options] =>
        let command := fresh "command" in
        remember c as command in *;
        pose proof (rejected_in_executor_trace backend command no_options)
          as Hrej;
        destruct (outcome_of backend command no_options)
    end; simpl; rewrite Hrej;
    eexists; repeat split; try reflexivity; discriminate.
Qed.

(* ------------------------------------------------------------------ *)
(** *** The text of the backend in the replies *)

(** X3. When the command that a request spawns resolves with [stdout],
    the reply is 200 with success true and carries [stdout] trimmed, whatever
    was written to [stderr]: as [rawOutput] (files, changes, change details,
    users, sync), [content] or [history], and parsed into the info object
    for the info route. *)
Theorem backend_text_is_returned_trimmed :
  forall (backend : Backend) (op : Operation) (req : Request)
         (cmd cwd : string) (timeout : Z) (stdout stderr : string),
    In (Spawn cmd cwd timeout) (trace_of (serve backend op req)) ->
    backend cmd cwd timeout = Resolved stdout stderr ->
    exists resp,
      result_of (serve backend op req) = inr resp /\
      status resp = 200 /\
      get "success" (body resp) = Some (JBool true) /\
      match op with
      | GetInfo =>
          get "data" (body resp) = Some (JObj (parse_info (Js.trim stdout)))
      | _ =>
          get2 "data" (text_field op) (body resp)
          = Some (JStr (Js.trim stdout))
      end.
Proof.
  intros backend op req cmd cwd timeout stdout stderr Hin Hout.
  destruct op; unfold_handlers; unfold_handlers_in Hin;
    try (unfold handleValidationErrors in *;
         destruct (validationResult _ req); [ | simpl in Hin; contradiction ]);
    match goal with
    | |- context [executeP4Command backend ?c no_options] =>
        let command := fresh "command" in
        remember c as command in *;
        destruct (outcome_of backend command no_options)
          as [out err | message] eqn:E
    end;
    unfold try_catch in Hin; rewrite bind_executeP4Command in Hin;
    rewrite E in Hin; simpl in Hin;
    apply spawn_in_executor_trace in Hin;
    rewrite E in Hin; rewrite Hin in Hout; try discriminate Hout;
    inversion Hout; subst out err;
    step_executor; rewrite E; simpl;
    eexists; repeat split; try reflexivity;
    destruct (lookup "path" (req_query req)); reflexivity.
Qed.

Lemma backend_text_is_returned_trimmed_witness :
  exists resp,
    result_of (serve Scenario.depot ListUsers Scenario.no_parameters) = inr resp /\
    status resp = 200 /\
    get "success" (body resp) = Some (JBool true) /\
    get2 "data" "rawOutput" (body resp)
    = Some (JStr "super <super@localhost> (super) accessed 2025/01/03").
Proof.
  apply (backend_text_is_returned_trimmed Scenario.depot ListUsers
           Scenario.no_parameters "p4 users" "/workspace" 30000%Z
           ("super <super@localhost> (super) accessed 2025/01/03" ++ Adapter.NL)
           EmptyString).
  - vm_compute. tauto.
  - reflexivity.
Defined.

(* ------------------------------------------------------------------ *)
(** *** The info object *)

Lemma lookup_obj_set_same {A} k (v : A) kvs :
  lookup k (obj_set k v kvs) = Some v.
Proof.
  induction kvs as [ | [k' v'] kvs IH]; simpl.
  - now rewrite String.eqb_refl.
  - destruct (String.eqb k k') eqn:E; simpl; rewrite ?String.eqb_refl, ?E;
      [ reflexivity | exact IH ].
Qed.

Lemma lookup_obj_set_other {A} k k' (v : A) kvs :
  String.eqb k k' = false ->
  lookup k' (obj_set k v kvs) = lookup k' kvs.
Proof.
  intros Hk. assert (Hk' : String.eqb k' k = false)
    by (rewrite String.eqb_sym; exact Hk).
  induction kvs as [ | [k0 v0] kvs IH]; simpl.
  - now rewrite Hk'.
  - destruct (String.eqb k k0) eqn:E; simpl.
    + apply String.eqb_eq in E. subst k0. now rewrite Hk'.
    + now rewrite IH.
Qed.

Lemma lookup_none {A} k (kvs : list (string * A)) :
  lookup k kvs = None <-> ~ In k (map fst kvs).
Proof.
  induction kvs as [ | [k' v'] kvs IH]; simpl; [ tauto | ].
  destruct (String.eqb k k') eqn:E.
  - apply String.eqb_eq in E. subst k'. split; [ discriminate | tauto ].
  - apply String.eqb_neq in E. rewrite IH. split.
    + intros H [H' | H']; [ now symmetry in H' | contradiction ].
    + tauto.
Qed.

Lemma keys_obj_set {A} k (v : A) kvs :
  map fst (obj_set k v kvs)
  = match lookup k kvs with
    | Some _ => map fst kvs
    | None => (map fst kvs ++ [k])%list
    end.
Proof.
  induction kvs as [ | [k' v'] kvs IH]; simpl; [ reflexivity | ].
  destruct (String.eqb k k') eqn:E; simpl.
  - apply String.eqb_eq in E. now subst k'.
  - rewrite IH. now destruct (lookup k kvs).
Qed.

Lemma in_keys_insert_index {A} i k (v : A) kvs x :
  In x (map fst (insert_index i k v kvs)) <-> x = k \/ In x (map fst kvs).
Proof.
  induction kvs as [ | [k' v'] kvs IH]; simpl.
  - split; [ intros [<- | []]; now left | intros [-> | []]; now left ].
  - destruct (array_index k') as [j | ]; [ destruct (j <? i)%Z | ]; simpl;
      rewrite ?IH; intuition congruence.
Qed.

Lemma lookup_insert_index_same {A} i k (v : A) kvs :
  lookup k kvs = None -> lookup k (insert_index i k v kvs) = Some v.
Proof.
  induction kvs as [ | [k' v'] kvs IH]; simpl.
  - now rewrite String.eqb_refl.
  - destruct (String.eqb k k') eqn:E; [ discriminate | ]. intros Hk.
    destruct (array_index k') as [j | ]; [ destruct (j <? i)%Z | ]; simpl;
      rewrite ?E, ?String.eqb_refl; auto.
Qed.

Lemma lookup_insert_index_other {A} i k k' (v : A) kvs :
  String.eqb k k' = false ->
  lookup k' (insert_index i k v kvs) = lookup k' kvs.
Proof.
  intros Hk. assert (Hk' : String.eqb k' k = false)
    by (rewrite String.eqb_sym; exact Hk).
  induction kvs as [ | [k0 v0] kvs IH]; simpl.
  - now rewrite Hk'.
  - destruct (array_index k0) as [j | ]; [ destruct (j <? i)%Z | ]; simpl;
      rewrite ?Hk', ?IH; reflexivity.
Qed.

Lemma nodup_insert_index {A} i k (v : A) kvs :
  ~ In k (map fst kvs) ->
  NoDup (map fst kvs) -> NoDup (map fst (insert_index i k v kvs)).
Proof.
  induction kvs as [ | [k' v'] kvs IH]; simpl; intros Hk Hnd.
  - constructor; [ intros [] | constructor ].
  - inversion Hnd as [ | ? ? Hnotin Hnd' ]; subst.
    assert (Hnew : NoDup (k :: k' :: map fst kvs))
      by (constructor; [ exact Hk | exact Hnd ]).
    destruct (array_index k') as [j | ]; [ destruct (j <? i)%Z | ]; simpl;
      try exact Hnew.
    constructor; [ | apply IH; tauto ].
    rewrite in_keys_insert_index. intros [-> | Hin]; tauto.
Qed.

(** What an assignment to a property does to the object. *)
Lemma lookup_assign_same {A} k (v : A) kvs :
  String.eqb k "__proto__" = false -> lookup k (assign k v kvs) = Some v.
Proof.
  intros Hk. unfold assign. rewrite Hk.
  destruct (lookup k kvs) eqn:E; [ apply lookup_obj_set_same | ].
  destruct (array_index k);
    [ now apply lookup_insert_index_same | apply lookup_obj_set_same ].
Qed.

Lemma lookup_assign_other {A} k k' (v : A) kvs :
  String.eqb k k' = false -> lookup k' (assign k v kvs) = lookup k' kvs.
Proof.
  intros Hk. unfold assign.
  destruct (String.eqb k "__proto__"); [ reflexivity | ].
  destruct (lookup k kvs); [ now apply lookup_obj_set_other | ].
  destruct (array_index k);
    [ now apply lookup_insert_index_other | now apply lookup_obj_set_other ].
Qed.

Lemma nodup_assign {A} k (v : A) kvs :
  NoDup (map fst kvs) -> NoDup (map fst (assign k v kvs)).
Proof.
  intros Hnd. unfold assign.
  destruct (String.eqb k "__proto__"); [ exact Hnd | ].
  destruct (lookup k kvs) eqn:E.
  - rewrite keys_obj_set, E. exact Hnd.
  - assert (Hk : ~ In k (map fst kvs)) by now apply lookup_none.
    destruct (array_index k); [ now apply nodup_insert_index | ].
    rewrite keys_obj_set, E. apply NoDup_app; [ exact Hnd | | ].
    + constructor; [ intros [] | constructor ].
    + intros x Hx [<- | []]. contradiction.
Qed.

Lemma enumeration_order_append keys k :
  array_index k = None ->
  enumeration_order keys = true -> enumeration_order (keys ++ [k]) = true.
Proof.
  intros Hk. induction keys as [ | k0 keys IH]; simpl.
  - now rewrite Hk.
  - destruct (array_index k0) as [i | ].
    + intros H. apply andb_prop in H. destruct H as [Hnext Hrest].
      rewrite (IH Hrest), andb_true_r.
      destruct keys as [ | k1 keys]; simpl; [ now rewrite Hk | exact Hnext ].
    + intros H. rewrite forallb_app, H. simpl. now rewrite Hk.
Qed.

Lemma enumeration_order_insert {A} i k (v : A) kvs :
  array_index k = Some i ->
  enumeration_order (map fst kvs) = true ->
  enumeration_order (map fst (insert_index i k v kvs)) = true.
Proof.
  intros Hk. induction kvs as [ | [k0 v0] kvs IH].
  - intros _. simpl. now rewrite Hk.
  - intros H.
    change (insert_index i k v ((k0, v0) :: kvs))
      with (match array_index k0 with
            | Some j =>
                if (j <? i)%Z then (k0, v0) :: insert_index i k v kvs
                else (k, v) :: (k0, v0) :: kvs
            | None => (k, v) :: (k0, v0) :: kvs
            end).
    destruct (array_index k0) as [j | ] eqn:Hk0.
    + destruct (Z.ltb_spec j i) as [Hlt | Hge].
      * change (map fst ((k0, v0) :: insert_index i k v kvs))
          with (k0 :: map fst (insert_index i k v kvs)).
        change (map fst ((k0, v0) :: kvs)) with (k0 :: map fst kvs) in H.
        cbn [enumeration_order] in *. rewrite Hk0 in *.
        apply andb_prop in H. destruct H as [Hnext Hrest].
        rewrite (IH Hrest), andb_true_r.
        destruct kvs as [ | [k1 v1] kvs]; cbn [insert_index map fst].
        -- rewrite Hk. apply Z.leb_le. lia.
        -- cbn [map fst] in Hnext.
           destruct (array_index k1) as [j1 | ] eqn:Hk1;
             [ destruct (j1 <? i)%Z | ]; cbn [map fst];
             rewrite ?Hk, ?Hk1; try exact Hnext; apply Z.leb_le; lia.
      * change (map fst ((k, v) :: (k0, v0) :: kvs))
          with (k :: k0 :: map fst kvs).
        change (map fst ((k0, v0) :: kvs)) with (k0 :: map fst kvs) in H.
        cbn [enumeration_order]. cbn [enumeration_order] in H.
        rewrite Hk, Hk0 in *. rewrite H, andb_true_r. apply Z.leb_le. lia.
    + change (map fst ((k, v) :: (k0, v0) :: kvs))
        with (k :: k0 :: map fst kvs).
      change (map fst ((k0, v0) :: kvs)) with (k0 :: map fst kvs) in H.
      cbn [enumeration_order]. cbn [enumeration_order] in H.
      rewrite Hk, Hk0 in *. now rewrite H.
Qed.

Lemma enumeration_order_assign {A} k (v : A) kvs :
  enumeration_order (map fst kvs) = true ->
  enumeration_order (map fst (assign k v kvs)) = true.
Proof.
  intros H. unfold assign.
  destruct (String.eqb k "__proto__"); [ exact H | ].
  destruct (lookup k kvs) eqn:E.
  - now rewrite keys_obj_set, E.
  - destruct (array_index k) eqn:Hk.
    + now apply enumeration_order_insert.
    + rewrite keys_obj_set, E. now apply enumeration_order_append.
Qed.

Lemma lookup_fold_info k lines : forall info,
  lookup k (fold_left info_step lines info)
  = match (if String.eqb k "__proto__" then None else last_value k lines) with
    | Some v => Some (JStr v)
    | None => lookup k info
    end.
Proof.
  induction lines as [ | line rest IH]; intros info; simpl.
  - now destruct (String.eqb k "__proto__").
  - rewrite IH. destruct (String.eqb k "__proto__") eqn:Hproto.
    + unfold info_step.
      destruct (split_first ": " line) as [[key value] | ]; [ | reflexivity ].
      apply String.eqb_eq in Hproto. subst k.
      destruct (String.eqb (Js.trim key) "__proto__") eqn:E.
      * unfold assign. now rewrite E.
      * now apply lookup_assign_other.
    + destruct (last_value k rest) as [v | ]; [ reflexivity | ].
      unfold info_step, info_entry.
      destruct (split_first ": " line) as [[key value] | ]; [ | reflexivity ].
      destruct (String.eqb (Js.trim key) k) eqn:E.
      * apply String.eqb_eq in E. subst k. now apply lookup_assign_same.
      * now apply lookup_assign_other.
Qed.

Lemma keys_fold_info lines : forall info,
  NoDup (map fst info) /\ enumeration_order (map fst info) = true ->
  NoDup (map fst (fold_left info_step lines info)) /\
  enumeration_order (map fst (fold_left info_step lines info)) = true.
Proof.
  induction lines as [ | line rest IH]; intros info [Hnd Horder]; simpl;
    [ now split | ].
  apply IH. unfold info_step.
  destruct (split_first ": " line) as [[key value] | ]; [ | now split ].
  split; [ now apply nodup_assign | now apply enumeration_order_assign ].
Qed.

(** X4. In the object that the info route builds, the value of a key is the
    trimmed value of the last line of the output with that trimmed key: a
    later line overwrites an earlier one and lines without a separator add
    nothing. The key [__proto__] is the exception: a line with it adds no
    property. No key occurs twice, and the keys that are array indices come
    first, in ascending order. *)
Theorem info_keeps_the_last_line_of_each_key :
  forall (output k : string),
    lookup k (parse_info output)
    = (if String.eqb k "__proto__" then None
       else option_map JStr (last_value k (Js.split_lf output))) /\
    NoDup (map fst (parse_info output)) /\
    enumeration_order (map fst (parse_info output)) = true.
Proof.
  intros output k. unfold parse_info.
  change (fun info line => _) with info_step. split.
  - rewrite lookup_fold_info.
    destruct (String.eqb k "__proto__"); [ reflexivity | ].
    destruct (last_value k (Js.split_lf output)); reflexivity.
  - apply keys_fold_info. split; [ constructor | reflexivity ].
Qed.

(* ------------------------------------------------------------------ *)
(** *** Cutting a line at its first separator *)

Lemma split_sep_skip sep line : forall k,
  split_sep sep k line = split_sep sep 0 (drop k line).
Proof.
  induction line as [ | c rest IH]; intros [ | k]; try reflexivity.
  simpl. apply IH.
Qed.

Lemma drop_app_length a b : drop (String.length a) (a ++ b) = b.
Proof. induction a as [ | c a IH]; simpl; [ now destruct b | exact IH ]. Qed.

Lemma length_drop k s : String.length (drop k s) <= String.length s.
Proof.
  revert k. induction s as [ | c s IH]; intros [ | k]; simpl; try lia.
  specialize (IH k). lia.
Qed.

Lemma join_cons_char sep c piece pieces :
  Js.join sep (String c piece :: pieces)
  = String c (Js.join sep (piece :: pieces)).
Proof. destruct pieces; reflexivity. Qed.

Section SplitJoin.

Variable a : ascii.
Variable sep' : string.
Let sep := String a sep'.

Lemma split_sep_at_separator c rest :
  Js.startsWith (String c rest) sep = true ->
  split_sep sep 0 (String c rest)
  = EmptyString :: split_sep sep 0 (drop (String.length sep') rest) /\
  drop (String.length sep) (String c rest) = drop (String.length sep') rest /\
  String c rest = sep ++ drop (String.length sep') rest.
Proof.
  intros H. split; [ | split ].
  - cbn [split_sep]. rewrite H.
    replace (String.length sep - 1) with (String.length sep')
      by (unfold sep; simpl; lia).
    now rewrite split_sep_skip.
  - reflexivity.
  - apply startsWith_split in H. destruct H as [tail H].
    unfold sep in *. simpl in H. inversion H as [[Hc Hrest]].
    now rewrite drop_app_length.
Qed.

Lemma join_split_sep n : forall line,
  String.length line <= n ->
  Js.join sep (split_sep sep 0 line) = line /\ split_sep sep 0 line <> [].
Proof.
  induction n as [ | n IH]; intros [ | c rest] Hlen; simpl in Hlen;
    try lia; try (split; [ reflexivity | discriminate ]).
  destruct (Js.startsWith (String c rest) sep) eqn:Hstart.
  - destruct (split_sep_at_separator c rest Hstart) as (Hsplit & _ & Hline).
    rewrite Hsplit. split; [ | discriminate ].
    destruct (IH (drop (String.length sep') rest)) as [Hjoin Hne].
    { pose proof (length_drop (String.length sep') rest). lia. }
    destruct (split_sep sep 0 (drop (String.length sep') rest))
      as [ | piece pieces]; [ contradiction | ].
    change (Js.join sep (EmptyString :: piece :: pieces))
      with (sep ++ Js.join sep (piece :: pieces)).
    rewrite Hjoin. symmetry. exact Hline.
  - cbn [split_sep]. rewrite Hstart.
    destruct (IH rest) as [Hjoin Hne]; [ lia | ].
    destruct (split_sep sep 0 rest) as [ | piece pieces];
      [ contradiction | ].
    split; [ | discriminate ].
    now rewrite join_cons_char, Hjoin.
Qed.

Lemma split_first_is_split_then_join line :
  split_first sep line
  = match split_sep sep 0 line with
    | key :: first :: more => Some (key, Js.join sep (first :: more))
    | _ => None
    end.
Proof.
  induction line as [ | c rest IH].
  - reflexivity.
  - destruct (Js.startsWith (String c rest) sep) eqn:Hstart.
    + destruct (split_sep_at_separator c rest Hstart) as (Hsplit & Hdrop & _).
      rewrite Hsplit. cbn [split_first]. rewrite Hstart, Hdrop.
      destruct (join_split_sep _ (drop (String.length sep') rest) (le_n _))
        as [Hjoin Hne].
      destruct (split_sep sep 0 (drop (String.length sep') rest))
        as [ | piece pieces]; [ contradiction | ].
      now rewrite Hjoin.
    + cbn [split_first split_sep]. rewrite Hstart, IH.
      destruct (join_split_sep _ rest (le_n _)) as [_ Hne].
      destruct (split_sep sep 0 rest) as [ | piece pieces];
        [ contradiction | ].
      destruct pieces; reflexivity.
Qed.

End SplitJoin.

(** X5. Splitting a line at every colon-space and joining all pieces
    but the first again, as the info route does, is cutting the line at its
    first colon-space: the key is what precedes it and the value is all that
    follows, later separators included; a line without one has no value
    parts. Joining all the pieces gives the line back. *)
Theorem info_line_is_cut_at_its_first_separator :
  forall (line : string),
    split_first ": " line
    = match split_sep ": " 0 line with
      | key :: first :: more => Some (key, Js.join ": " (first :: more))
      | _ => None
      end /\
    Js.join ": " (split_sep ": " 0 line) = line.
Proof.
  intros line. split.
  - apply split_first_is_split_then_join.
  - apply (join_split_sep ":" " " _ line (le_n _)).
Qed.

(* ------------------------------------------------------------------ *)
(** *** What the executor logs *)

(** X6. Every run of [executeP4Command] appends to the log the line
    Executing P4 command, then spawns the one child process with the default
    directory [/workspace] and timeout 30000 unless the options give others,
    and spawns nothing more. When the child resolves it logs a warning
    exactly when [stderr] is not empty and does not hold the word warning,
    and then the trimmed [stdout]; when the child rejects it logs one error
    line with the message. *)
Theorem executor_logs_each_invocation :
  forall (backend : Backend) (command : string) (options : ExecOptions)
         (t : Trace),
  exists after,
    snd (executeP4Command backend command options t)
    = (t ++ LogInfo ("Executing P4 command: p4 " ++ command)
         :: Spawn ("p4 " ++ command)
              (or_default (opt_cwd options) "/workspace")
              (or_default_Z (opt_timeout options) 30000)
         :: after)%list /\
    filter is_spawn after = [] /\
    match outcome_of backend command options with
    | Resolved stdout stderr =>
        after
        = ((if Js.is_empty stderr || Js.includes stderr "warning"
            then []
            else [LogWarn ("P4 command warning: " ++ stderr)])
           ++ [LogInfo ("P4 command stdout for " ++ Js.DQUOTE ++ "p4 "
                        ++ command ++ Js.DQUOTE ++ ":"
                        ++ String Js.LF (Js.trim stdout))])%list
    | Rejected message =>
        after = [LogError ("P4 command failed: " ++ message)]
    end.
Proof.
  intros backend command options t.
  rewrite executeP4Command_run. cbn [snd].
  with_strategy transparent [executor_trace outcome_of]
    (unfold executor_trace, outcome_of).
  cbv zeta.
  destruct (backend _ _ _) as [stdout stderr | message].
  - eexists. split; [ reflexivity | ]. unfold Js.truthy.
    destruct (Js.is_empty stderr); simpl; [ now split | ].
    destruct (Js.includes stderr "warning"); simpl; now split.
  - eexists. split; [ reflexivity | ]. now split.
Qed.

(* ------------------------------------------------------------------ *)
(** *** Forcing a sync *)

(** X7. For a sync request that passes validation, the command has
    the flag [-f] exactly when the [force] field of the body is truthy in
    JavaScript, and [forced] in the reply is then that value as sent,
    otherwise false. Since the validator accepts the strings true and false
    and the numbers 0 and 1, the string false forces the sync. *)
Theorem sync_is_forced_by_any_truthy_value :
  forall (backend : Backend) (req : Request),
    validationResult sync_chains req = [] ->
    exists resp path,
      result_of (sync backend req) = inr resp /\
      spawned (trace_of (sync backend req))
      = ["p4 sync"
         ++ (if truthy_value (lookup "force" (req_body req)) then " -f"
             else EmptyString)
         ++ " " ++ Js.DQUOTE ++ path ++ Js.DQUOTE] /\
      get2 "data" "forced" (body resp)
      = Some (if truthy_value (lookup "force" (req_body req))
              then match lookup "force" (req_body req) with
                   | Some v => json_of_scalar v
                   | None => JNull
                   end
              else JBool false).
Proof.
  intros backend req Hvalid.
  unfold_handlers. unfold handleValidationErrors. rewrite Hvalid.
  step_executor.
  exists (res_json
            (ok (JObj
                   [("path",
                     json_of_scalar
                       (value_or (lookup "path" (req_body req))
                          (SStr "//depot/...")));
                    ("rawOutput",
                     json_of_text
                       (output
                          (command_result
                             (outcome_of backend
                                ((if truthy_value
                                        (Some (value_or
                                                 (lookup "force" (req_body req))
                                                 (SBool false)))
                                  then "sync" ++ " -f" else "sync")
                                 ++ " " ++ Js.DQUOTE
                                 ++ template
                                      (Some (value_or
                                               (lookup "path" (req_body req))
                                               (SStr "//depot/...")))
                                 ++ Js.DQUOTE)
                                no_options))));
                    ("forced",
                     json_of_scalar
                       (value_or (lookup "force" (req_body req))
                          (SBool false)))]))),
    (template (Some (value_or (lookup "path" (req_body req))
                       (SStr "//depot/...")))).
  split; [ reflexivity | ].
  cbn [fst snd ret app]. rewrite spawned_executor_trace.
  destruct (lookup "force" (req_body req)) as [[ | [ | ] | n | s] | ];
    try (split; reflexivity).
  - cbn [value_or truthy_value].
    destruct (Z.eqb n 0) eqn:E; cbn [negb]; cbv iota; cbn [truthy_value];
      rewrite ?E; split; reflexivity.
  - cbn [value_or truthy_value]. destruct s; split; reflexivity.
Qed.

Lemma sync_is_forced_by_the_string_false :
  validationResult sync_chains
    (mkRequest [] [] [("force", SStr "false")]) = [] /\
  exists resp path,
    result_of (sync Scenario.depot (mkRequest [] [] [("force", SStr "false")]))
    = inr resp /\
    spawned (trace_of (sync Scenario.depot
                         (mkRequest [] [] [("force", SStr "false")])))
    = ["p4 sync -f " ++ Js.DQUOTE ++ path ++ Js.DQUOTE] /\
    get2 "data" "forced" (body resp) = Some (JStr "false").
Proof.
  split; [ reflexivity | ].
  apply (sync_is_forced_by_any_truthy_value Scenario.depot
           (mkRequest [] [] [("force", SStr "false")])).
  reflexivity.
Defined.

(* ------------------------------------------------------------------ *)
(** *** Printing and reading change numbers *)

Ltac digit_arith :=
  unfold Js.digit_value;
  match goal with
  | |- context [Z.of_nat (nat_of_ascii ?c)] =>
      let v := eval vm_compute in (Z.of_nat (nat_of_ascii c)) in
      change (Z.of_nat (nat_of_ascii c)) with v
  end;
  lia.

Lemma digits_value_of_uint_acc d : forall acc,
  Js.digits_value (Zpos acc) (NilEmpty.string_of_uint d)
  = Zpos (Pos.of_uint_acc d acc).
Proof.
  induction d; intros acc;
    cbn [NilEmpty.string_of_uint Js.digits_value Pos.of_uint_acc];
    try reflexivity;
    rewrite <- IHd; f_equal; digit_arith.
Qed.

Lemma digits_value_of_uint d :
  Js.digits_value 0 (NilEmpty.string_of_uint d) = Z.of_N (Pos.of_uint d).
Proof.
  induction d;
    cbn [NilEmpty.string_of_uint Js.digits_value Pos.of_uint Z.of_N];
    try reflexivity;
    first [ rewrite <- IHd | rewrite <- digits_value_of_uint_acc ];
    f_equal; digit_arith.
Qed.

Lemma all_digits_of_uint d :
  Js.all_digits (NilEmpty.string_of_uint d) = true.
Proof. induction d; simpl; auto. Qed.

Lemma to_uint_not_nil p : Pos.to_uint p <> Decimal.Nil.
Proof.
  intros H. pose proof (DecimalPos.Unsigned.of_to p) as Hp.
  rewrite H in Hp. discriminate.
Qed.

Lemma parseInt_of_Z n :
  Js.parseInt (Js.of_Z n) = Some (Js.to_double n).
Proof.
  unfold Js.of_Z. destruct n as [ | p | p]; [ reflexivity | | ].
  - unfold Z.to_int, NilZero.string_of_int, NilZero.string_of_uint.
    pose proof (to_uint_not_nil p) as Hnil.
    pose proof (DecimalPos.Unsigned.of_to p) as Hp.
    pose proof (digits_value_of_uint (Pos.to_uint p)) as Hvalue.
    pose proof (all_digits_of_uint (Pos.to_uint p)) as Hdigits.
    rewrite Hp in Hvalue.
    destruct (Pos.to_uint p); [ contradiction | .. ];
      unfold Js.parseInt;
      match goal with
      | |- context [NilEmpty.string_of_uint ?d] =>
          remember (NilEmpty.string_of_uint d) as s eqn:Hs
      end;
      simpl in Hs; subst s; cbv beta iota;
      change (Ascii.eqb _ "-") with false; change (Ascii.eqb _ "+") with false;
      cbv beta iota; rewrite Hdigits, Hvalue; reflexivity.
  - unfold Z.to_int, NilZero.string_of_int, NilZero.string_of_uint.
    pose proof (to_uint_not_nil p) as Hnil.
    pose proof (DecimalPos.Unsigned.of_to p) as Hp.
    pose proof (digits_value_of_uint (Pos.to_uint p)) as Hvalue.
    pose proof (all_digits_of_uint (Pos.to_uint p)) as Hdigits.
    rewrite Hp in Hvalue.
    destruct (Pos.to_uint p) eqn:Hd; [ contradiction | .. ];
      unfold Js.parseInt; rewrite Ascii.eqb_refl, Hdigits, Hvalue;
      reflexivity.
Qed.

Lemma of_Z_digits n :
  (0 <= n)%Z ->
  Js.all_digits (Js.of_Z n) = true /\
  Js.digits_value 0 (Js.of_Z n) = n /\
  Js.of_Z n <> EmptyString.
Proof.
  intros Hn. destruct n as [ | p | p]; [ now repeat split | | lia ].
  unfold Js.of_Z, Z.to_int, NilZero.string_of_int, NilZero.string_of_uint.
  pose proof (to_uint_not_nil p) as Hnil.
  pose proof (DecimalPos.Unsigned.of_to p) as Hp.
  pose proof (digits_value_of_uint (Pos.to_uint p)) as Hvalue.
  pose proof (all_digits_of_uint (Pos.to_uint p)) as Hdigits.
  rewrite Hp in Hvalue.
  destruct (Pos.to_uint p); [ contradiction | .. ];
    (split; [ exact Hdigits | split; [ exact Hvalue | discriminate ] ]).
Qed.

(** X8. A change number that is a safe integer, of either sign, written in
    decimal passes the validation of the change route, is put in the command
    [p4 describe -s] as written, and comes back as the number [changeId] of
    the reply beside the trimmed output; when the command fails the reply is
    404, Change not found. Beyond the safe integers the number that comes
    back is rounded: for 9007199254740993 it is 9007199254740992, while the
    command still has the digits as written. *)
Theorem printed_change_number_is_accepted_and_echoed :
  (forall (backend : Backend) (n : Z),
      Js.safe_integer n = true ->
      validationResult change_chains
        (mkRequest [] [("changeId", Js.of_Z n)] []) = [] /\
      spawned (trace_of (change backend
                           (mkRequest [] [("changeId", Js.of_Z n)] [])))
      = ["p4 describe -s " ++ Js.of_Z n] /\
      result_of (change backend (mkRequest [] [("changeId", Js.of_Z n)] []))
      = inr (match outcome_of backend ("describe -s " ++ Js.of_Z n)
                     no_options with
             | Resolved stdout _ =>
                 res_json (ok (JObj [("changeId", JNum n);
                                     ("rawOutput", JStr (Js.trim stdout))]))
             | Rejected message =>
                 res_status_json 404
                   (failure "Change not found" (JStr message))
             end)) /\
  (Js.safe_integer 9007199254740993 = false /\
   spawned (trace_of (change (fun _ _ _ => Resolved "ok" EmptyString)
                        (mkRequest [] [("changeId", "9007199254740993")] [])))
   = ["p4 describe -s 9007199254740993"] /\
   result_of (change (fun _ _ _ => Resolved "ok" EmptyString)
                (mkRequest [] [("changeId", "9007199254740993")] []))
   = inr (res_json (ok (JObj [("changeId", JNum 9007199254740992);
                              ("rawOutput", JStr "ok")])))).
Proof.
  split; [ | repeat split; vm_compute; reflexivity ].
  intros backend n Hsafe.
  assert (Hvalid : validationResult change_chains
                     (mkRequest [] [("changeId", Js.of_Z n)] []) = []).
  { unfold validationResult, change_chains, run_chain, violated, chain_skipped,
      required_field. simpl. rewrite parseInt_of_Z. reflexivity. }
  split; [ exact Hvalid | ].
  unfold_handlers. unfold handleValidationErrors. rewrite Hvalid.
  step_executor.
  change (lookup "changeId"
            (req_params (mkRequest [] [("changeId", Js.of_Z n)] [])))
    with (Some (Js.of_Z n)).
  change (template (option_map SStr (Some (Js.of_Z n)))) with (Js.of_Z n).
  rewrite parseInt_of_Z, (to_double_safe n Hsafe).
  destruct (outcome_of backend ("describe -s " ++ Js.of_Z n) no_options);
    simpl; rewrite spawned_executor_trace; split; reflexivity.
Qed.

Lemma printed_change_number_witness :
  validationResult change_chains
    (mkRequest [] [("changeId", Js.of_Z 3)] []) = [] /\
  spawned (trace_of (change Scenario.depot
                       (mkRequest [] [("changeId", Js.of_Z 3)] [])))
  = ["p4 describe -s " ++ Js.of_Z 3] /\
  result_of (change Scenario.depot (mkRequest [] [("changeId", Js.of_Z 3)] []))
  = inr (res_json (ok (JObj [("changeId", JNum 3);
                             ("rawOutput",
                              JStr (Js.trim Scenario.describe_3))]))).
Proof.
  apply (proj1 printed_change_number_is_accepted_and_echoed Scenario.depot 3%Z).
  reflexivity.
Defined.

(** X9. The scan reads the number [n] off a line of the listing that
    starts with the word Change, a space and [n] printed in decimal, when
    [n] is a safe integer and no digit follows it. Beyond the safe integers
    the number read is rounded: off a line for change 9007199254740993 the
    scan reads 9007199254740992. *)
Theorem listing_line_of_a_change_is_read_back :
  (forall (n : Z) (rest : string),
      (0 <= n)%Z ->
      Js.safe_integer n = true ->
      match rest with
      | EmptyString => True
      | String c _ => Js.is_digit c = false
      end ->
      Adapter.change_number ("Change " ++ Js.of_Z n ++ rest) = Some n) /\
  Adapter.change_number "Change 9007199254740993 on 2025/01/03 by super"
  = Some 9007199254740992%Z.
Proof.
  split; [ | vm_compute; reflexivity ].
  intros n rest Hn Hsafe Hrest.
  destruct (of_Z_digits n Hn) as (Hdigits & Hvalue & Hne).
  apply (change_number_safe _ n Hsafe).
  exists (Js.of_Z n), rest. repeat split; auto.
Qed.

Lemma listing_line_of_a_change_is_read_back_witness :
  Adapter.change_number
    ("Change " ++ Js.of_Z 12107
     ++ " on 2025/01/03 by super@nodejs-client 'Updated fixed test file'")
  = Some 12107%Z.
Proof.
  apply (proj1 listing_line_of_a_change_is_read_back 12107%Z
           " on 2025/01/03 by super@nodejs-client 'Updated fixed test file'").
  - lia.
  - reflexivity.
  - reflexivity.
Defined.

(* ------------------------------------------------------------------ *)
(** *** The scan: what it requests and how it fails *)

Section ScanBehaviour.

Import Adapter ScanSpec.

Variable http : Http.
Variable base : string.

Lemma makeApiRequest_calls endpoint method data calls :
  snd (makeApiRequest http base endpoint method data calls)
  = (calls ++ [mkCall method (base ++ endpoint)])%list.
Proof.
  unfold makeApiRequest.
  destruct (http method (base ++ endpoint) data) as [code text reply | | m];
    [ destruct (is_2xx code) | | ]; reflexivity.
Qed.

Lemma for_each_calls keywords changeNumbers st calls :
  snd (for_each (analyze_change http base keywords) changeNumbers st calls)
  = (calls ++ map (detail_call base) changeNumbers)%list.
Proof.
  destruct (for_each_run http base keywords changeNumbers st calls)
    as (st' & Hrun & _).
  now rewrite Hrun.
Qed.

End ScanBehaviour.

Section ScanFailures.

Import Adapter ScanSpec.

Variable http : Http.
Variable base : string.

Lemma rawOutput_of_calls result x method (calls : list Call) :
  snd (rawOutput_of result x method calls) = calls.
Proof.
  unfold rawOutput_of.
  destruct result as [ | b | n | t | items | top]; try reflexivity.
  destruct (get "data" (JObj top)) as [[ | | | | | fields] | ];
    try reflexivity.
  destruct (get "rawOutput" (JObj fields)) as [[ | | | | | ] | ]; reflexivity.
Qed.

Lemma analyze_calls :
  forall (maxChanges : option Z) (keywords : option (list string))
         (calls : list Call),
  exists details,
    snd (analyzeSensitiveChanges http base maxChanges keywords calls)
    = (calls
       ++ mkCall "GET"
            (base ++ "/changes?max="
             ++ Js.of_Z (match maxChanges with Some n => n | None => 10%Z end))
       :: details)%list /\
    Forall (fun c => call_method c = "GET" /\
                     exists changeId,
                       call_url c = base ++ "/changes/" ++ Js.of_Z changeId)
      details.
Proof.
  intros maxChanges keywords calls.
  unfold analyzeSensitiveChanges, atry, abind, scan.
  set (mc := match maxChanges with Some n => n | None => 10%Z end).
  set (ks := match keywords with Some k => k | None => default_keywords end).
  unfold abind at 1.
  pose proof (makeApiRequest_calls http base ("/changes?max=" ++ Js.of_Z mc)
                "GET" None calls) as Hcalls.
  destruct (makeApiRequest http base ("/changes?max=" ++ Js.of_Z mc) "GET" None
              calls) as [[e | changesResult] calls1]; simpl in Hcalls;
    subst calls1.
  - exists []. split; [ reflexivity | constructor ].
  - unfold abind at 1.
    pose proof (rawOutput_of_calls changesResult "changesText" "split"
                  (calls ++ [mkCall "GET" (base ++ "/changes?max=" ++ Js.of_Z mc)])%list)
      as Hsame.
    destruct (rawOutput_of changesResult "changesText" "split" _)
      as [[e | changesText] calls2]; simpl in Hsame; subst calls2.
    + exists []. split; [ reflexivity | constructor ].
    + unfold abind.
      match goal with
      | |- context [for_each _ ?ids ?st0 ?calls0] =>
          destruct (for_each_run http base ks ids st0 calls0)
            as (st & Hloop & _)
      end.
      rewrite Hloop. cbn [snd aret].
      exists (map (detail_call base) (change_numbers changesText)).
      split; [ now rewrite <- app_assoc | ].
      apply Forall_forall. intros c Hc. apply in_map_iff in Hc.
      destruct Hc as (changeId & <- & _). split; [ reflexivity | ].
      now exists changeId.
Qed.

(** X10. The scan makes only GET requests: first the listing of changes
    with [max] equal to [maxChanges] (10 when not given), then requests for
    the details of single changes and nothing else. *)
Theorem scan_only_reads :
  forall (maxChanges : option Z) (keywords : option (list string))
         (calls : list Call),
  exists details,
    snd (analyzeSensitiveChanges http base maxChanges keywords calls)
    = (calls
       ++ mkCall "GET"
            (base ++ "/changes?max="
             ++ Js.of_Z (match maxChanges with Some n => n | None => 10%Z end))
       :: details)%list /\
    Forall (fun c => call_method c = "GET" /\
                     exists changeId,
                       call_url c = base ++ "/changes/" ++ Js.of_Z changeId)
      details.
Proof. exact analyze_calls. Qed.

(** X11. When the request for the listing of changes fails, the scan
    fails with the message of that failure prefixed by Failed to analyze
    sensitive changes, after that one request. *)
Theorem failed_listing_fails_the_scan :
  forall (maxChanges : option Z) (keywords : option (list string))
         (calls : list Call) (e : Exn),
    fst (makeApiRequest http base
           ("/changes?max="
            ++ Js.of_Z (match maxChanges with Some n => n | None => 10%Z end))
           "GET" None calls)
    = inl e ->
    analyzeSensitiveChanges http base maxChanges keywords calls
    = (inl ("Failed to analyze sensitive changes: " ++ e),
       (calls
        ++ [mkCall "GET"
              (base ++ "/changes?max="
               ++ Js.of_Z (match maxChanges with Some n => n | None => 10%Z end))])%list).
Proof.
  intros maxChanges keywords calls e Hfail.
  unfold analyzeSensitiveChanges, atry, abind, scan.
  set (mc := match maxChanges with Some n => n | None => 10%Z end) in *.
  unfold abind at 1.
  pose proof (makeApiRequest_calls http base ("/changes?max=" ++ Js.of_Z mc)
                "GET" None calls) as Hcalls.
  destruct (makeApiRequest http base ("/changes?max=" ++ Js.of_Z mc) "GET" None
              calls) as [[e' | changesResult] calls1]; simpl in *;
    [ | discriminate ].
  inversion Hfail. subst. reflexivity.
Qed.

(** X12. When the details of a change are not served (an error reply, no
    reply, or a reply without a text [rawOutput]), the scan adds one line
    Could not analyze change to the report, leaves the count of flagged
    changes as it is, and goes on. *)
Theorem failed_detail_is_reported_not_fatal :
  forall (keywords : list string) (st : Analysis) (changeId : Z)
         (calls : list Call),
    change_details http base changeId = None ->
    exists message,
      analyze_change http base keywords st changeId calls
      = (inr (mkAnalysis
                (analysisResults st
                 ++ "⚠️  Could not analyze change " ++ Js.of_Z changeId
                 ++ ": " ++ message ++ NL ++ NL)
                (foundSensitiveChanges st)),
         (calls ++ [detail_call base changeId])%list).
Proof.
  intros keywords st changeId calls.
  unfold analyze_change, atry, abind, makeApiRequest, change_details,
    detail_call, rawOutput_of, get2.
  destruct (http "GET" (base ++ "/changes/" ++ Js.of_Z changeId) None)
    as [code statusText reply | | message].
  - destruct (is_2xx code).
    + destruct reply as [ | b | n | t | items | top];
        try (intros _; eexists; reflexivity).
      cbn [get].
      destruct (lookup "data" top) as [data | ].
      * destruct data; try (intros _; eexists; reflexivity).
        cbn [get].
        destruct (lookup "rawOutput" fields) as [[ | | | text | | ] | ];
          try (intros _; eexists; reflexivity).
        discriminate.
      * intros _. eexists. reflexivity.
    + intros _. eexists. reflexivity.
  - intros _. eexists. reflexivity.
  - intros _. eexists. reflexivity.
Qed.

(** X13. An empty string among the keywords is found in every detail text,
    so the scan then flags every change whose details are served. *)
Theorem empty_keyword_flags_every_served_change :
  forall (keywords : list string) (st : Analysis) (changeId : Z)
         (calls : list Call) (details : string),
    change_details http base changeId = Some details ->
    In EmptyString keywords ->
    In EmptyString (found_keywords keywords details) /\
    fst (analyze_change http base keywords st changeId calls)
    = inr (mkAnalysis
             (analysisResults st ++ flag_paragraph keywords changeId details)
             (S (foundSensitiveChanges st))).
Proof.
  intros keywords st changeId calls details Hserved Hin.
  assert (Hfound : In EmptyString (found_keywords keywords details)).
  { unfold found_keywords. apply filter_In. split; [ exact Hin | ].
    destruct (Js.toLowerCase details); reflexivity. }
  split; [ exact Hfound | ].
  destruct (analyze_change_run http base keywords st changeId calls)
    as (st' & Hrun & Hcount & Htext).
  rewrite Hrun. cbn [fst]. f_equal.
  unfold flagged in Hcount. rewrite Hserved in Hcount, Htext.
  unfold found_keywords_nonempty in *.
  destruct (found_keywords keywords details); [ contradiction | ].
  destruct st' as [results found]. cbn in *. subst results found.
  now rewrite Nat.add_1_r.
Qed.

End ScanFailures.

(* ------------------------------------------------------------------ *)
(** *** Failures of the gateway, as the adapter sees them *)

Lemma failed_reply backend op req :
  resource_lookup op || collection op = true ->
  command_failed backend (serve backend op req) ->
  exists message,
    result_of (serve backend op req)
    = inr (res_status_json (if resource_lookup op then 404 else 500)
             (failure (failure_message op) (JStr message))).
Proof.
  intros Hkind Hfail. unfold command_failed in Hfail.
  destruct op; try discriminate Hkind; unfold_handlers;
    unfold_handlers_in Hfail;
    try (unfold handleValidationErrors in *;
         destruct (validationResult _ req); [ | failed_validation Hfail ]);
    match goal with
    | |- context [executeP4Command backend ?c no_options] =>
        let command := fresh "command" in
        remember c as command in *;
        destruct (outcome_of backend command no_options)
          as [stdout stderr | message] eqn:E
    end;
    settle Hfail E;
    step_executor; rewrite E; subst; simpl; eexists; reflexivity.
Qed.

Lemma sync_failed_reply backend req :
  command_failed backend (sync backend req) ->
  exists path forced,
    result_of (sync backend req)
    = inr (res_json (ok (JObj [("path", path); ("rawOutput", JNull);
                               ("forced", forced)]))).
Proof.
  intros Hfail. unfold command_failed in Hfail.
  unfold_handlers_in Hfail. unfold_handlers.
  unfold handleValidationErrors in *.
  destruct (validationResult _ req); [ | failed_validation Hfail ].
  match goal with
  | |- context [executeP4Command backend ?c no_options] =>
      remember c as command in *;
      destruct (outcome_of backend command no_options)
        as [stdout stderr | message] eqn:E
  end;
  settle Hfail E.
  step_executor. rewrite E. subst. simpl. do 2 eexists. reflexivity.
Qed.

(** X14. When the command of a request to one of the seven operations
    with an error reply fails and the reply of the gateway reaches the
    adapter, [makeApiRequest] throws API Error with the status, 404 or 500,
    and the message of the route; the error text of the backend is not in
    it. *)
Theorem gateway_failure_reaches_the_client :
  forall (backend : Backend) (op : Operation) (req : Request)
         (http : Adapter.Http) (base endpoint method : string)
         (data : option json) (calls : list Adapter.Call),
    resource_lookup op || collection op = true ->
    command_failed backend (serve backend op req) ->
    served (serve backend op req) (http method (base ++ endpoint) data) ->
    Adapter.makeApiRequest http base endpoint method data calls
    = (inl ("API Error: " ++ (if resource_lookup op then "404" else "500")
            ++ " - " ++ failure_message op),
       (calls ++ [Adapter.mkCall method (base ++ endpoint)])%list).
Proof.
  intros backend op req http base endpoint method data calls Hkind Hfail
    (resp & statusText & Hrun & Hhttp).
  destruct (failed_reply backend op req Hkind Hfail) as [message Hreply].
  rewrite Hreply in Hrun. inversion Hrun. subst resp.
  unfold Adapter.makeApiRequest. rewrite Hhttp.
  destruct op; try discriminate Hkind; reflexivity.
Qed.

Lemma gateway_failure_witness :
  Adapter.makeApiRequest
    (fun _ _ _ => Scenario.reply_of (info Scenario.unreachable))
    Scenario.base "/info" "GET" None []
  = (inl "API Error: 500 - Failed to get server info",
     [Adapter.mkCall "GET" (Scenario.base ++ "/info")]).
Proof.
  apply (gateway_failure_reaches_the_client Scenario.unreachable GetInfo
           Scenario.no_parameters
           (fun _ _ _ => Scenario.reply_of (info Scenario.unreachable))
           Scenario.base "/info" "GET" None []).
  - reflexivity.
  - exists "p4 info", "/workspace", 30000%Z. eexists.
    split; [ vm_compute; tauto | reflexivity ].
  - eexists. eexists. split; reflexivity.
Defined.

(* ------------------------------------------------------------------ *)
(** *** The tools *)

Section ToolFacts.

Import Adapter Tools.

Variable http : Http.
Variable base : string.

Lemma request_run endpoint method data calls :
  (exists reply,
      request http base endpoint method data calls
      = (inr reply, (calls ++ [mkCall method (base ++ endpoint)])%list)) \/
  (exists message,
      request http base endpoint method data calls
      = (inl (PlainError message),
         (calls ++ [mkCall method (base ++ endpoint)])%list)).
Proof.
  unfold request, lift, makeApiRequest.
  destruct (http method (base ++ endpoint) data) as [code text reply | | m];
    [ destruct (is_2xx code) | | ];
    first [ left; eexists; reflexivity | right; eexists; reflexivity ].
Qed.

Lemma data_of_run result property (calls : list Call) :
  snd (data_of result property calls) = calls /\
  match fst (data_of result property calls) with
  | inl (McpError _ _) => False
  | _ => True
  end.
Proof.
  unfold data_of.
  destruct result; try (now split);
    destruct (get "data" _) as [[ | | | | | ] | ]; now split.
Qed.

Lemma asks_once_read endpoint method data property
    (render : json -> string) :
  asks_once method
    (tbind (request http base endpoint method data) (fun result =>
     tbind (data_of result property) (fun data' =>
     tret (text_content (render data'))))).
Proof.
  intros calls. exists (base ++ endpoint). unfold tbind.
  destruct (request_run endpoint method data calls)
    as [[reply Hrun] | [message Hrun]]; rewrite Hrun; [ | now split ].
  destruct (data_of_run reply property
              (calls ++ [mkCall method (base ++ endpoint)])%list)
    as [Hcalls Hfail].
  destruct (data_of reply property _) as [[f | d] calls'];
    simpl in *; subst calls'; split; auto.
Qed.

Lemma asks_once_info : asks_once "GET" (getServerInfo http base).
Proof.
  intros calls. exists (base ++ "/info"). unfold getServerInfo, tbind.
  destruct (request_run "/info" "GET" None calls)
    as [[reply Hrun] | [message Hrun]]; rewrite Hrun; [ | now split ].
  destruct reply; now split.
Qed.

End ToolFacts.

(* ------------------------------------------------------------------ *)
(** *** The dispatch of the tools *)

Section DispatchFacts.

Import Adapter Tools.

Variable http : Http.
Variable base : string.

Lemma lift_analyze_run maxChanges keywords calls :
  exists new,
    snd (lift (analyzeSensitiveChanges http base maxChanges keywords) calls)
    = (calls ++ new)%list /\
    Forall (fun c => call_method c = "GET") new /\
    match fst (lift (analyzeSensitiveChanges http base maxChanges keywords)
                 calls) with
    | inl (McpError _ _) => False
    | _ => True
    end.
Proof.
  destruct (analyze_calls http base maxChanges keywords calls)
    as (details & Hcalls & Hget).
  unfold lift.
  destruct (analyzeSensitiveChanges http base maxChanges keywords calls)
    as [[e | r] calls']; simpl in *; subst calls';
    (eexists; split; [ reflexivity | ]; split; [ | exact I ];
     constructor; [ reflexivity | ];
     apply Forall_forall; intros c Hc;
     rewrite Forall_forall in Hget; now apply Hget).
Qed.

Ltac single_call Honce calls method :=
  cbv zeta;
  match goal with
  | |- context [snd (?tool calls)] =>
      let new := fresh "new" in
      destruct (Honce method tool) as (new & ? & ? & ? & ?);
      [ apply asks_once_read | exists new; repeat split; eauto ]
  end.

(** What [dispatch] may come to, tool by tool. *)
Lemma dispatch_run name args calls :
  (mem_string name tool_names = false /\
   dispatch http base name args calls
   = (inl (McpError MethodNotFound ("Unknown tool: " ++ name)), calls)) \/
  (mem_string name tool_names = true /\
   ((exists message,
        dispatch http base name args calls
        = (inl (McpError InvalidParams message), calls) /\
        ((message = "File path is required" /\
          missing (arg_path args) = true /\
          (name = "get_file_content" \/ name = "get_file_history")) \/
         (message = "Change ID is required" /\
          nonzero (arg_changeId args) = None /\
          name = "get_change_details"))) \/
    (exists new,
        snd (dispatch http base name args calls) = (calls ++ new)%list /\
        Forall (fun c => call_method c
                         = if String.eqb name "sync_files" then "POST"
                           else "GET") new /\
        (String.eqb name "analyze_sensitive_changes" = false ->
         List.length new = 1) /\
        match fst (dispatch http base name args calls) with
        | inl (McpError _ _) => False
        | _ => True
        end))).
Proof.
  assert (Honce : forall method m,
             asks_once method m ->
             exists new,
               snd (m calls) = (calls ++ new)%list /\
               Forall (fun c => call_method c = method) new /\
               List.length new = 1 /\
               match fst (m calls) with
               | inl (McpError _ _) => False
               | _ => True
               end).
  { intros method m Hm. destruct (Hm calls) as (url & Hcalls & Hfail).
    exists [mkCall method url]. repeat split; auto. }
  unfold dispatch, mem_string, tool_names. cbn [existsb].
  destruct (String.eqb name "get_server_info") eqn:E1.
  { right. split; [ reflexivity | ]. right.
    destruct (Honce "GET" _ (asks_once_info http base))
      as (new & H1 & H2 & H3 & H4).
    apply String.eqb_eq in E1. subst name. exists new. now repeat split. }
  destruct (String.eqb name "list_files") eqn:E2.
  { right. split; [ reflexivity | ]. right.
    apply String.eqb_eq in E2. subst name. unfold listFiles.
    single_call Honce calls "GET". }
  destruct (String.eqb name "get_file_content") eqn:E3.
  { right. split; [ reflexivity | ].
    apply String.eqb_eq in E3. subst name. unfold getFileContent.
    destruct (missing (arg_path args)) eqn:Hpath.
    - left. eexists. split; [ reflexivity | ]. left. repeat split; auto.
    - right.
      single_call Honce calls "GET". }
  destruct (String.eqb name "get_file_history") eqn:E4.
  { right. split; [ reflexivity | ].
    apply String.eqb_eq in E4. subst name. unfold getFileHistory.
    destruct (missing (arg_path args)) eqn:Hpath.
    - left. eexists. split; [ reflexivity | ]. left. repeat split; auto.
    - right.
      single_call Honce calls "GET". }
  destruct (String.eqb name "list_changes") eqn:E5.
  { right. split; [ reflexivity | ]. right.
    apply String.eqb_eq in E5. subst name. unfold listChanges.
    single_call Honce calls "GET". }
  destruct (String.eqb name "get_change_details") eqn:E6.
  { right. split; [ reflexivity | ].
    apply String.eqb_eq in E6. subst name. unfold getChangeDetails.
    destruct (nonzero (arg_changeId args)) as [changeId | ] eqn:Hid.
    - right.
      single_call Honce calls "GET".
    - left. eexists. split; [ reflexivity | ]. right. repeat split; auto. }
  destruct (String.eqb name "list_users") eqn:E7.
  { right. split; [ reflexivity | ]. right.
    apply String.eqb_eq in E7. subst name. unfold listUsers.
    single_call Honce calls "GET". }
  destruct (String.eqb name "sync_files") eqn:E8.
  { right. split; [ reflexivity | ]. right.
    apply String.eqb_eq in E8. subst name. unfold syncFiles.
    single_call Honce calls "POST". }
  destruct (String.eqb name "analyze_sensitive_changes") eqn:E9.
  { right. split; [ reflexivity | ]. right.
    destruct (lift_analyze_run (arg_maxChanges args) (arg_keywords args) calls)
      as (new & H1 & H2 & H3).
    exists new. repeat split; auto. discriminate. }
  left. split; reflexivity.
Qed.

End DispatchFacts.

Section CallToolFacts.

Import Adapter Tools.

Variable http : Http.
Variable base : string.

(** X15. A call of a tool whose name is not in the catalog fails with
    the code MethodNotFound and the message Unknown tool with the name, and
    makes no request to the gateway. *)
Theorem unknown_tool_is_refused_without_a_call :
  forall (name : string) (args : Args) (calls : list Call),
    mem_string name tool_names = false ->
    call_tool http base name args calls
    = (inl (McpError MethodNotFound ("Unknown tool: " ++ name)), calls).
Proof.
  intros name args calls Hname. unfold call_tool, ttry.
  destruct (dispatch_run http base name args calls)
    as [[_ Hrun] | [Hknown _]]; [ now rewrite Hrun | congruence ].
Qed.

(** X16. Whatever a tool call fails with is an [McpError]. Its code is
    MethodNotFound only for a name outside the catalog, InvalidParams only
    with one of the two messages on a required argument and with no request
    made, and InternalError only for a tool of the catalog, with a message
    that starts with Tool execution failed. *)
Theorem every_tool_failure_is_an_McpError :
  forall (name : string) (args : Args) (calls : list Call),
    match fst (call_tool http base name args calls) with
    | inr _ => True
    | inl (PlainError _) => False
    | inl (McpError MethodNotFound message) =>
        mem_string name tool_names = false /\
        message = "Unknown tool: " ++ name
    | inl (McpError InvalidParams message) =>
        snd (call_tool http base name args calls) = calls /\
        (message = "File path is required" \/
         message = "Change ID is required")
    | inl (McpError InternalError message) =>
        mem_string name tool_names = true /\
        exists cause, message = "Tool execution failed: " ++ cause
    end.
Proof.
  intros name args calls. unfold call_tool, ttry.
  destruct (dispatch_run http base name args calls)
    as [[Hname Hrun] | [Hname [(message & Hrun & Hwhy) | (new & _ & _ & _ & Hfail)]]].
  - rewrite Hrun. now split.
  - rewrite Hrun. cbn. split; [ reflexivity | ].
    destruct Hwhy as [(-> & _) | (-> & _)]; [ now left | now right ].
  - destruct (dispatch http base name args calls) as [[[code m | m] | r] calls'];
      cbn in *; [ contradiction | | exact I ].
    split; [ exact Hname | now exists m ].
Qed.

(** X17. The tools for file content and file history called without a
    path, or with an empty one, and the tool for change details called
    without a change number, or with 0, fail with the code InvalidParams
    before any request is made. *)
Theorem required_arguments_are_checked_before_any_call :
  forall (args : Args) (calls : list Call),
    (missing (arg_path args) = true ->
     call_tool http base "get_file_content" args calls
     = (inl (McpError InvalidParams "File path is required"), calls) /\
     call_tool http base "get_file_history" args calls
     = (inl (McpError InvalidParams "File path is required"), calls)) /\
    (nonzero (arg_changeId args) = None ->
     call_tool http base "get_change_details" args calls
     = (inl (McpError InvalidParams "Change ID is required"), calls)).
Proof.
  intros args calls. split.
  - intros Hpath. unfold call_tool, ttry, dispatch. cbn [String.eqb Ascii.eqb].
    unfold getFileContent, getFileHistory. rewrite Hpath. split; reflexivity.
  - intros Hid. unfold call_tool, ttry, dispatch. cbn [String.eqb Ascii.eqb].
    unfold getChangeDetails. rewrite Hid. reflexivity.
Qed.

(** X18. All requests that a tool call makes are GET requests, except
    those of [sync_files], which are POST requests; every tool but the scan
    makes at most one request. *)
Theorem only_sync_files_writes :
  forall (name : string) (args : Args) (calls : list Call),
  exists new,
    snd (call_tool http base name args calls) = (calls ++ new)%list /\
    Forall (fun c => call_method c
                     = if String.eqb name "sync_files" then "POST" else "GET")
      new /\
    (if String.eqb name "analyze_sensitive_changes" then True
     else List.length new <= 1).
Proof.
  intros name args calls. unfold call_tool, ttry.
  destruct (dispatch_run http base name args calls)
    as [[Hname Hrun] | [Hname [(message & Hrun & _) | (new & Hcalls & Hmethod & Hone & _)]]].
  - rewrite Hrun. exists []. cbn. rewrite app_nil_r.
    repeat split; [ constructor | ].
    destruct (String.eqb name "analyze_sensitive_changes"); [ exact I | lia ].
  - rewrite Hrun. exists []. cbn. rewrite app_nil_r.
    repeat split; [ constructor | ].
    destruct (String.eqb name "analyze_sensitive_changes"); [ exact I | lia ].
  - exists new.
    assert (Hsnd : snd (match dispatch http base name args calls with
                        | (inl f, calls') =>
                            match f with
                            | McpError _ _ => tthrow f
                            | PlainError message =>
                                tthrow (McpError InternalError
                                          ("Tool execution failed: " ++ message))
                            end calls'
                        | (inr j, l) => (inr j, l)
                        end)
                   = snd (dispatch http base name args calls)).
    { destruct (dispatch http base name args calls) as [[[code m | m] | r] calls'];
        reflexivity. }
    rewrite Hsnd, Hcalls. repeat split; [ exact Hmethod | ].
    destruct (String.eqb name "analyze_sensitive_changes");
      [ exact I | rewrite Hone; auto ].
Qed.

End CallToolFacts.

(* ------------------------------------------------------------------ *)
(** *** The tools over the gateway *)

(** X19. When the sync command fails at the gateway, the tool
    [sync_files] does not fail: it returns the text Sync Results for the
    path followed by the word null. *)
Theorem failed_sync_reaches_the_agent_as_null :
  forall (backend : Backend) (req : Request) (http : Adapter.Http)
         (base : string) (path : option string) (force : option bool)
         (calls : list Adapter.Call),
    command_failed backend (sync backend req) ->
    served (sync backend req)
      (http "POST" (base ++ "/sync")
         (Some (JObj [("path", JStr (Tools.default path "//depot/..."));
                      ("force", JBool (Tools.default force false))]))) ->
    Tools.call_tool http base "sync_files"
      (Tools.mkArgs path None None None None None force None None) calls
    = (inr (Adapter.text_content
              ("Sync Results for " ++ Tools.default path "//depot/..."
               ++ (if Tools.default force false then " (forced)"
                   else EmptyString)
               ++ ":" ++ Adapter.NL ++ Adapter.NL ++ "null")),
       (calls ++ [Adapter.mkCall "POST" (base ++ "/sync")])%list).
Proof.
  intros backend req http base path force calls Hfail
    (resp & statusText & Hrun & Hhttp).
  destruct (sync_failed_reply backend req Hfail) as (p & f & Hreply).
  rewrite Hreply in Hrun. inversion Hrun. subst resp.
  unfold Tools.call_tool, Tools.ttry, Tools.dispatch.
  cbn [String.eqb Ascii.eqb]. unfold Tools.syncFiles. cbv zeta.
  unfold Tools.tbind, Tools.request, Tools.lift, Adapter.makeApiRequest.
  cbn [Tools.arg_path Tools.arg_force].
  rewrite Hhttp. reflexivity.
Qed.

(** X20. When the info command fails at the gateway, the tool
    [get_server_info] fails with the code InternalError and the message Tool
    execution failed: API Error: 500 - Failed to get server info. *)
Theorem failed_info_reaches_the_agent_as_an_internal_error :
  forall (backend : Backend) (http : Adapter.Http) (base : string)
         (args : Tools.Args) (calls : list Adapter.Call),
    command_failed backend (info backend) ->
    served (info backend) (http "GET" (base ++ "/info") None) ->
    Tools.call_tool http base "get_server_info" args calls
    = (inl (Tools.McpError Tools.InternalError
              "Tool execution failed: API Error: 500 - Failed to get server info"),
       (calls ++ [Adapter.mkCall "GET" (base ++ "/info")])%list).
Proof.
  intros backend http base args calls Hfail
    (resp & statusText & Hrun & Hhttp).
  destruct (failed_reply backend GetInfo Scenario.no_parameters eq_refl Hfail)
    as (message & Hreply).
  cbn [serve] in Hreply. rewrite Hreply in Hrun. inversion Hrun. subst resp.
  unfold Tools.call_tool, Tools.ttry, Tools.dispatch.
  cbn [String.eqb Ascii.eqb]. unfold Tools.getServerInfo.
  unfold Tools.tbind, Tools.request, Tools.lift, Adapter.makeApiRequest.
  rewrite Hhttp. reflexivity.
Qed.

(* ------------------------------------------------------------------ *)
(** *** The closing lines of the report *)

(** X21. When the listing of changes is served, the scan returns a
    report that ends with the summary Found [k] potentially sensitive changes
    out of [n] analyzed, where [k] is the number of flagged changes and [n]
    the number of changes read off the listing, or, when none is flagged,
    with the line No potentially sensitive changes found in the last
    [maxChanges] changes, which names the number asked for, not [n]. *)
Theorem report_counts_the_flagged_changes :
  forall (http : Adapter.Http) (base : string) (maxChanges : Z)
         (keywords : list string) (code : nat) (statusText : string)
         (reply : json) (changesText : string) (calls : list Adapter.Call),
    http "GET" (base ++ "/changes?max=" ++ Js.of_Z maxChanges) None
    = Adapter.Replied code statusText reply ->
    Adapter.is_2xx code = true ->
    get2 "data" "rawOutput" reply = Some (JStr changesText) ->
    exists paragraphs,
      fst (Adapter.analyzeSensitiveChanges http base (Some maxChanges)
             (Some keywords) calls)
      = inr (Adapter.text_content
               (paragraphs
                ++ match List.length
                           (filter (ScanSpec.flagged http base keywords)
                              (Adapter.change_numbers changesText)) with
                   | O =>
                       "✅ No potentially sensitive changes found in the last "
                       ++ Js.of_Z maxChanges ++ " changes." ++ Adapter.NL
                   | S n =>
                       Adapter.NL ++ "🔍 SUMMARY: Found " ++ Js.of_nat (S n)
                       ++ " potentially sensitive changes out of "
                       ++ Js.of_nat
                            (List.length (Adapter.change_numbers changesText))
                       ++ " analyzed." ++ Adapter.NL
                       ++ "Please review these changes carefully for actual sensitive content."
                       ++ Adapter.NL
                   end)).
Proof.
  intros http base maxChanges keywords code statusText reply changesText calls
    Hhttp Hok Hraw.
  destruct (scan_run http base keywords maxChanges code statusText reply
              changesText calls Hhttp Hok Hraw) as (st & Hscan & Hfound).
  unfold Adapter.analyzeSensitiveChanges, Adapter.atry, Adapter.abind.
  rewrite Hscan. cbn [fst snd Adapter.aret]. unfold Adapter.conclude.
  rewrite Hfound. exists (Adapter.analysisResults st).
  destruct (List.length _); reflexivity.
Qed.

Lemma report_counts_witness :
  exists paragraphs,
    fst (Adapter.analyzeSensitiveChanges Scenario.gateway Scenario.base
           (Some 3%Z) (Some ["fixed"; "settings"]) [])
    = inr (Adapter.text_content
             (paragraphs
              ++ Adapter.NL ++ "🔍 SUMMARY: Found " ++ Js.of_nat 3
              ++ " potentially sensitive changes out of " ++ Js.of_nat 3
              ++ " analyzed." ++ Adapter.NL
              ++ "Please review these changes carefully for actual sensitive content."
              ++ Adapter.NL)).
Proof.
  apply (report_counts_the_flagged_changes Scenario.gateway Scenario.base 3%Z
           ["fixed"; "settings"] 200 "OK"
           (ok (JObj [("rawOutput", JStr (Js.trim Scenario.changes_text));
                      ("count", JNum 3)]))
           (Js.trim Scenario.changes_text) []);
    reflexivity.
Defined.

(* ------------------------------------------------------------------ *)
(** *** The revision of a file *)

Lemma validated_revision_is_not_empty req :
  validationResult content_chains req = [] ->
  exists path,
    lookup "path" (req_query req) = Some path /\
    match lookup "revision" (req_query req) with
    | Some revision => Js.truthy revision = true
    | None => True
    end.
Proof.
  unfold validationResult, content_chains, run_chain, violated, chain_skipped,
    required_field, optional_field.
  cbn [flat_map chain_validators chain_optional chain_location chain_field
       filter map field_value v_check andb negb app].
  destruct (lookup "path" (req_query req)) as [path | ];
    [ | cbn; discriminate ].
  intros H. exists path. split; [ reflexivity | ].
  destruct (lookup "revision" (req_query req)) as [[ | c r] | ];
    [ | reflexivity | exact I ].
  cbn in H. destruct (Js.truthy path); cbn in H; discriminate.
Qed.

(** X22. For a request for file content that passes validation, the
    command prints the path followed by a hash sign and the revision when one
    is given (a validated revision is never empty), inside one pair of
    quotes; a 200 reply echoes the path and, as [revision], the revision with
    its hash sign, or the empty string. *)
Theorem file_revision_is_appended_to_the_path :
  forall (backend : Backend) (req : Request),
    validationResult content_chains req = [] ->
    exists path resp,
      lookup "path" (req_query req) = Some path /\
      spawned (trace_of (content backend req))
      = ["p4 print -q " ++ Js.DQUOTE ++ path
         ++ match lookup "revision" (req_query req) with
            | Some revision => "#" ++ revision
            | None => EmptyString
            end
         ++ Js.DQUOTE] /\
      result_of (content backend req) = inr resp /\
      (status resp = 200 ->
       get2 "data" "path" (body resp) = Some (JStr path) /\
       get2 "data" "revision" (body resp)
       = Some (JStr match lookup "revision" (req_query req) with
                    | Some revision => "#" ++ revision
                    | None => EmptyString
                    end)).
Proof.
  intros backend req Hvalid.
  destruct (validated_revision_is_not_empty req Hvalid) as (path & Hpath & Hrev).
  unfold_handlers. unfold handleValidationErrors. rewrite Hvalid, Hpath.
  step_executor. exists path.
  assert (Hrevision :
            match lookup "revision" (req_query req) with
            | Some r => if Js.truthy r then "#" ++ r else EmptyString
            | None => EmptyString
            end
            = match lookup "revision" (req_query req) with
              | Some revision => "#" ++ revision
              | None => EmptyString
              end).
  { destruct (lookup "revision" (req_query req)); [ now rewrite Hrev | reflexivity ]. }
  rewrite Hrevision.
  match goal with
  | |- context [outcome_of backend ?c no_options] =>
      destruct (outcome_of backend c no_options)
  end; cbn [fst snd ret bind negb success command_result];
    eexists; (split; [ reflexivity | ]);
    rewrite ?app_nil_l, spawned_executor_trace;
    (split; [ reflexivity | ]); (split; [ reflexivity | ]).
  - intros _. split; reflexivity.
  - cbn. discriminate.
Qed.

Lemma file_revision_witness :
  exists path resp,
    lookup "path" [("path", "//depot/main/fixed.txt"); ("revision", "2")]
    = Some path /\
    spawned (trace_of (content Scenario.depot
                         (mkRequest [("path", "//depot/main/fixed.txt");
                                     ("revision", "2")] [] [])))
    = ["p4 print -q " ++ Js.DQUOTE ++ path ++ "#2" ++ Js.DQUOTE] /\
    result_of (content Scenario.depot
                 (mkRequest [("path", "//depot/main/fixed.txt");
                             ("revision", "2")] [] []))
    = inr resp /\
    (status resp = 200 ->
     get2 "data" "path" (body resp) = Some (JStr path) /\
     get2 "data" "revision" (body resp) = Some (JStr "#2")).
Proof.
  apply (file_revision_is_appended_to_the_path Scenario.depot
           (mkRequest [("path", "//depot/main/fixed.txt"); ("revision", "2")]
              [] [])).
  reflexivity.
Defined.

(* ------------------------------------------------------------------ *)
(** *** The theorems on the adapter at work *)

Lemma failed_listing_witness :
  Adapter.analyzeSensitiveChanges (fun _ _ _ => Adapter.NoReply) Scenario.base
    (Some 3%Z) None []
  = (inl ("Failed to analyze sensitive changes: "
          ++ "Network Error: Unable to reach Perforce API server"),
     ([] ++ [Adapter.mkCall "GET"
               (Scenario.base ++ "/changes?max=" ++ Js.of_Z 3)])%list).
Proof.
  apply (failed_listing_fails_the_scan (fun _ _ _ => Adapter.NoReply)
           Scenario.base (Some 3%Z) None []
           "Network Error: Unable to reach Perforce API server").
  reflexivity.
Defined.

Lemma failed_detail_witness :
  exists message,
    Adapter.analyze_change (fun _ _ _ => Adapter.NoReply) Scenario.base
      Adapter.default_keywords (Adapter.mkAnalysis EmptyString 0) 7 []
    = (inr (Adapter.mkAnalysis
              (EmptyString ++ "⚠️  Could not analyze change " ++ Js.of_Z 7
               ++ ": " ++ message ++ Adapter.NL ++ Adapter.NL)
              0),
       ([] ++ [ScanSpec.detail_call Scenario.base 7])%list).
Proof.
  apply (failed_detail_is_reported_not_fatal (fun _ _ _ => Adapter.NoReply)
           Scenario.base Adapter.default_keywords
           (Adapter.mkAnalysis EmptyString 0) 7%Z []).
  reflexivity.
Defined.

Lemma empty_keyword_witness :
  In EmptyString
    (Adapter.found_keywords [EmptyString] (Js.trim Scenario.describe_1)) /\
  fst (Adapter.analyze_change Scenario.gateway Scenario.base [EmptyString]
         (Adapter.mkAnalysis EmptyString 0) 1 [])
  = inr (Adapter.mkAnalysis
           (EmptyString
            ++ ScanSpec.flag_paragraph [EmptyString] 1
                 (Js.trim Scenario.describe_1))
           1).
Proof.
  apply (empty_keyword_flags_every_served_change Scenario.gateway Scenario.base
           [EmptyString] (Adapter.mkAnalysis EmptyString 0) 1%Z []
           (Js.trim Scenario.describe_1)).
  - reflexivity.
  - now left.
Defined.

Lemma unknown_tool_witness :
  Tools.call_tool Scenario.gateway Scenario.base "delete_depot" Tools.no_args []
  = (inl (Tools.McpError Tools.MethodNotFound "Unknown tool: delete_depot"), []).
Proof.
  apply (unknown_tool_is_refused_without_a_call Scenario.gateway Scenario.base
           "delete_depot" Tools.no_args []).
  reflexivity.
Defined.

Lemma required_arguments_witness :
  Tools.call_tool Scenario.gateway Scenario.base "get_file_content"
    (Tools.mkArgs (Some EmptyString) None (Some 2%Z) None None None None None
       None) []
  = (inl (Tools.McpError Tools.InvalidParams "File path is required"), []) /\
  Tools.call_tool Scenario.gateway Scenario.base "get_change_details"
    (Tools.mkArgs None None None (Some 0%Z) None None None None None) []
  = (inl (Tools.McpError Tools.InvalidParams "Change ID is required"), []).
Proof.
  split.
  - apply (proj1 (proj1 (required_arguments_are_checked_before_any_call
                           Scenario.gateway Scenario.base
                           (Tools.mkArgs (Some EmptyString) None (Some 2%Z) None
                              None None None None None) []) eq_refl)).
  - apply (proj2 (required_arguments_are_checked_before_any_call
                    Scenario.gateway Scenario.base
                    (Tools.mkArgs None None None (Some 0%Z) None None None None
                       None) [])).
    reflexivity.
Defined.

Lemma failed_sync_witness :
  Tools.call_tool
    (fun _ _ _ =>
       Scenario.reply_of (sync Scenario.unreachable Scenario.forced_sync))
    Scenario.base "sync_files"
    (Tools.mkArgs None None None None None None (Some true) None None) []
  = (inr (Adapter.text_content
            ("Sync Results for //depot/... (forced):"
             ++ Adapter.NL ++ Adapter.NL ++ "null")),
     [Adapter.mkCall "POST" (Scenario.base ++ "/sync")]).
Proof.
  apply (failed_sync_reaches_the_agent_as_null Scenario.unreachable
           Scenario.forced_sync
           (fun _ _ _ =>
              Scenario.reply_of (sync Scenario.unreachable Scenario.forced_sync))
           Scenario.base None (Some true) []).
  - exists ("p4 sync -f " ++ Js.DQUOTE ++ "//depot/..." ++ Js.DQUOTE),
      "/workspace", 30000%Z.
    eexists. split; [ vm_compute; tauto | reflexivity ].
  - eexists. eexists. split; reflexivity.
Defined.

Lemma failed_info_witness :
  Tools.call_tool
    (fun _ _ _ => Scenario.reply_of (info Scenario.unreachable))
    Scenario.base "get_server_info" Tools.no_args []
  = (inl (Tools.McpError Tools.InternalError
            "Tool execution failed: API Error: 500 - Failed to get server info"),
     [Adapter.mkCall "GET" (Scenario.base ++ "/info")]).
Proof.
  apply (failed_info_reaches_the_agent_as_an_internal_error Scenario.unreachable
           (fun _ _ _ => Scenario.reply_of (info Scenario.unreachable))
           Scenario.base Tools.no_args []).
  - exists "p4 info", "/workspace", 30000%Z. eexists.
    split; [ vm_compute; tauto | reflexivity ].
  - eexists. eexists. split; reflexivity.
Defined.
